(** * A model of [server.py]: registries, model caches, adapters, handlers

    The Flask application of [server.py] is embedded as pure functions over
    an explicit application state.  The third-party collaborators (PIL,
    transformers, the Python runtime's number parsing) are a record of
    oracles, [Backend]; everything the file itself decides (registry
    lookups, the two caches, prompt construction, post-processing, the
    try/except boundaries of the handlers) is written out.

    Conventions.
    - A Python [str] is a Rocq [string], one character per code point
      (code points below 256).
    - A Python [dict] whose order is observable (the registries, a JSON
      object) is an association list; the caches and the request's
      form/files are [gmap]s.
    - A Python [float] is the rational number it denotes. *)

From Stdlib Require Import ZArith QArith String Ascii List.
From stdpp Require Import base option gmap strings list fin_maps.

Local Open Scope Z_scope.
Local Open Scope string_scope.

(** ** Values *)

(** What [json.loads] can produce, and what [jsonify] is given. *)
#[warnings="-register-all"]
Inductive json : Type :=
| JNull
| JBool (b : bool)
| JInt (z : Z)
| JFloat (q : Q)
| JStr (s : string)
| JArr (items : list json)
| JObj (fields : list (string * json)).

(** The outcome of a Python call: a value, or an exception carried by
    its [str(e)]. *)
Inductive result (A : Type) : Type :=
| Return (a : A)
| Raise (e : string).
Arguments Return {A} a.
Arguments Raise {A} e.

(** ** Dictionaries kept as association lists *)

Section Dict.
Context {V : Type}.

(** [d.get(k)] *)
Fixpoint dict_get (d : list (string * V)) (k : string) : option V :=
  match d with
  | [] => None
  | (k', v) :: d' => if decide (k = k') then Some v else dict_get d' k
  end.

(** [k in d] *)
Definition dict_mem (d : list (string * V)) (k : string) : bool :=
  bool_decide (is_Some (dict_get d k)).

(** [d.keys()] *)
Definition dict_keys (d : list (string * V)) : list string := d.*1.

(** [d[k]], with the [KeyError] a missing key raises. *)
Definition dict_getitem (d : list (string * V)) (k : string) : result V :=
  match dict_get d k with
  | Some v => Return v
  | None => Raise ("'" +:+ k +:+ "'")
  end.
End Dict.

(** ** Strings *)

(** [str.isspace] on a single character, for code points below 256. *)
Definition isspace (c : ascii) : bool :=
  let n := nat_of_ascii c in
  ((9 <=? n) && (n <=? 13) || (28 <=? n) && (n <=? 32)
   || (n =? 133) || (n =? 160))%nat.

Fixpoint lstrip (s : string) : string :=
  match s with
  | String c r => if isspace c then lstrip r else s
  | EmptyString => EmptyString
  end.

Fixpoint rstrip (s : string) : string :=
  match s with
  | String c r =>
      match rstrip r with
      | EmptyString => if isspace c then EmptyString else String c EmptyString
      | r' => String c r'
      end
  | EmptyString => EmptyString
  end.

(** [s.strip()] *)
Definition strip (s : string) : string := rstrip (lstrip s).

(** [s.startswith(p)] *)
Definition startswith (s p : string) : bool := String.prefix p s.

(** [s[n:]] *)
Fixpoint slice_from (n : nat) (s : string) : string :=
  match n, s with
  | O, _ => s
  | S n', String _ r => slice_from n' r
  | S _, EmptyString => EmptyString
  end.

Definition nl : string := String (ascii_of_nat 10) EmptyString.

(** ** Model registry *)

(** One entry of [MODELS] or [LLM_MODELS].  The entries are Python dicts;
    the keys not every entry has are optional fields. *)
Record ModelInfo : Type := {
  name : string;
  model : string;
  description : string;
  type : option string;
  default_mode : option string;
  modes : option (list (string * string));
  revision : option string;
  pad_token_id : option Z;
}.

Definition plain (n m d : string) : ModelInfo :=
  {| name := n; model := m; description := d; type := None;
     default_mode := None; modes := None; revision := None;
     pad_token_id := None |}.

Definition MODELS : list (string * ModelInfo) :=
  [ ("blip-base",
     plain "BLIP Base" "Salesforce/blip-image-captioning-base"
           "Fast and lightweight (500MB)");
    ("blip-large",
     plain "BLIP Large" "Salesforce/blip-image-captioning-large"
           "More detailed captions (2GB)");
    ("vit-gpt2",
     plain "ViT-GPT2" "nlpconnect/vit-gpt2-image-captioning"
           "Alternative model (500MB)");
    ("florence-2",
     {| name := "Florence-2 Base";
        model := "microsoft/Florence-2-base";
        description := "High-quality captions (custom loader, ~1.5GB)";
        type := Some "florence";
        default_mode := Some "more_detailed";
        modes := Some [ ("caption", "<CAPTION>");
                        ("more_detailed", "<MORE_DETAILED_CAPTION>");
                        ("ocr", "<OCR>");
                        ("dense", "<DENSE_CAPTION>");
                        ("od", "<OD>") ];
        revision := None;
        pad_token_id := None |});
    ("moondream-2",
     {| name := "Moondream2";
        model := "vikhyatk/moondream2";
        description := "Lightweight VLM (fast CPU, ~1-2GB RAM)";
        type := Some "moondream";
        default_mode := Some "caption";
        modes := Some [ ("caption", "caption"); ("roast", "roast") ];
        revision := Some "2025-06-21";
        pad_token_id := None |}) ].

Definition llm (n m d : string) (pad : option Z) : ModelInfo :=
  {| name := n; model := m; description := d; type := None;
     default_mode := None; modes := None; revision := None;
     pad_token_id := pad |}.

Definition LLM_MODELS : list (string * ModelInfo) :=
  [ ("smollm2-1.7b",
     llm "SmolLM2 1.7B Instruct" "HuggingFaceTB/SmolLM2-1.7B-Instruct"
         "Tiny instruct model (fast CPU, ~1.5GB RAM)" (Some 128000));
    ("phi3-mini",
     llm "Phi-3 Mini 4k" "microsoft/Phi-3-mini-4k-instruct"
         "Reasoning-focused small model (~3GB RAM)" None);
    ("gemma2-2b",
     llm "Gemma-2 2B IT" "google/gemma-2-2b-it"
         "Creative text, ~2GB RAM" None);
    ("qwen2.5-1.5b",
     llm "Qwen2.5 1.5B Instruct" "Qwen/Qwen2.5-1.5B-Instruct"
         "Multilingual ultra-light (~1GB RAM)" None);
    ("tinyllama-1.1b",
     llm "TinyLlama 1.1B Chat" "TinyLlama/TinyLlama-1.1B-Chat-v1.0"
         "Very fast, basic chat (~1GB RAM)" None) ].

(** ** Florence prompt tags *)

(** The body of [florence_prompt_for_mode], for the descriptor [info]
    that [MODELS["florence-2"]] evaluates to:
    [tags = info.get("modes", {})],
    [default_mode = info.get("default_mode", "more_detailed")],
    [tags.get(mode, tags.get(default_mode, "<MORE_DETAILED_CAPTION>"))].
    The requested mode is [None] when the form has no [mode] field. *)
Definition prompt_for_mode (info : ModelInfo) (mode : option string) : string :=
  let tags := default [] (modes info) in
  let default_mode := default "more_detailed" (default_mode info) in
  default (default "<MORE_DETAILED_CAPTION>" (dict_get tags default_mode))
          (mode ≫= dict_get tags).

(** [MODELS["florence-2"]]; the lookup succeeds on the registry above. *)
Definition florence_info : ModelInfo :=
  default (plain "" "" "") (dict_get MODELS "florence-2").

Definition FLORENCE_TAGS : list (string * string) :=
  default [] (modes florence_info).

Definition florence_prompt_for_mode (mode : option string) : string :=
  prompt_for_mode florence_info mode.

(** ** Runtime objects *)

(** Which constructor of the transformers library built an object. *)
Inductive LoadKind : Type :=
| KProcessor                 (* AutoProcessor.from_pretrained *)
| KCausalLM                  (* AutoModelForCausalLM.from_pretrained *)
| KPipeline (task : string). (* pipeline(task, ...) *)

(** An initialised backend object.  [hid] is its identity: the value of
    the application clock when it was built, so two objects built by two
    calls are never the same object. *)
Record Handle : Type := {
  hid : nat;
  hkind : LoadKind;
  hub : string;
  hrev : option string;
}.

(** The two attributes of a tokenizer that [get_llm] reads and writes. *)
Record Tokenizer : Type := {
  tok_pad_token_id : option Z;
  tok_eos_token_id : option Z;
}.

(** A text-generation pipeline: the object and its [tokenizer]
    attribute ([None] when [getattr(pipe, "tokenizer", None)] is). *)
Record Pipe : Type := {
  pipe_handle : Handle;
  tokenizer : option Tokenizer;
}.

(** An entry of [model_cache], by its ["type"]. *)
Inductive LoadedModel : Type :=
| LFlorence (processor : Handle) (mdl : Handle)
| LMoondream (mdl : Handle)
| LPipeline (mdl : Handle).

(** An entry of [llm_cache]. *)
Record LoadedLLM : Type := {
  pipe : Pipe;
  llm_pad_token_id : option Z;
}.

Definition Image : Type := string.
Definition Tensor : Type := list Z.

(** What [model.query] and [model.caption] of the conversational model
    return: a dict, or any other object, given by its [str()]. *)
Inductive MoonResult : Type :=
| MDict (d : list (string * json))
| MOther (str : string).

(** ** The collaborators

    Every call into PIL, transformers or the number parsers of the
    runtime.  A call that builds or runs a model takes the application
    clock besides the model's hub name and its arguments, so it may
    answer differently from one call to the next; decoding an image,
    tokenizing, detokenizing and parsing numbers are functions of their
    arguments. *)
Record Backend : Type := {
  (* Image.open(stream).convert('RGB') *)
  image_open : string -> result Image;
  (* from_pretrained / pipeline: does construction succeed *)
  construct : nat -> LoadKind -> string -> option string -> result unit;
  (* the tokenizer attribute of a freshly built text pipeline *)
  tokenizer_of : string -> option Tokenizer;
  (* captioner(image) of an image-to-text pipeline *)
  captioner : nat -> string -> Image -> result (list (list (string * json)));
  (* processor(text=, images=, return_tensors="pt").to(device):
     input_ids and pixel_values *)
  process : string -> string -> Image -> result (Tensor * Tensor);
  (* model.generate(input_ids=, pixel_values=, max_new_tokens=, num_beams=) *)
  generate : nat -> string -> Tensor -> Tensor -> Z -> Z -> result Tensor;
  (* processor.batch_decode(ids, skip_special_tokens=True) *)
  batch_decode : string -> Tensor -> result (list string);
  (* model.query(image, prompt), model.caption(image) *)
  query : nat -> string -> Image -> string -> result MoonResult;
  caption : nat -> string -> Image -> result MoonResult;
  (* pipe(prompt, max_new_tokens=, do_sample=True, temperature=,
          pad_token_id=, num_return_sequences=1) *)
  sample : nat -> Pipe -> json -> Z -> Q -> option Z ->
           result (list (list (string * json)));
  (* int(s), float(s) of a str; int(x) of a float; float(n) of an int *)
  int_of_str : string -> result Z;
  float_of_str : string -> result Q;
  int_of_float : Q -> result Z;
  float_of_int : Z -> result Q;
  (* str(v) of a value that is not a str, as an f-string prints it *)
  repr : json -> string;
  (* traceback.format_exc() while the exception with this str() is handled *)
  format_exc : string -> string;
}.

(** ** Application state *)

(** What the application did, in order: log lines and calls into the
    backend. *)
Inductive Event : Type :=
| EvLog (level msg : string)
| EvConstruct (k : LoadKind) (hub : string) (rev : option string)
| EvImageOpen (stream : string)
| EvCaptioner (h : Handle) (img : Image)
| EvProcess (h : Handle) (text : string) (img : Image)
| EvGenerate (h : Handle) (max_new_tokens num_beams : Z)
| EvDecode (h : Handle)
| EvQuery (h : Handle) (img : Image) (prompt : string)
| EvCaption (h : Handle) (img : Image)
| EvSample (p : Pipe) (prompt : json) (max_new_tokens : Z)
           (temperature : Q) (pad : option Z).

Record State : Type := {
  model_cache : gmap string LoadedModel;
  llm_cache : gmap string LoadedLLM;
  clock : nat;
  trace : list Event;
}.

Definition set_model_cache (c : gmap string LoadedModel) (s : State) : State :=
  {| model_cache := c; llm_cache := llm_cache s;
     clock := clock s; trace := trace s |}.

Definition set_llm_cache (c : gmap string LoadedLLM) (s : State) : State :=
  {| model_cache := model_cache s; llm_cache := c;
     clock := clock s; trace := trace s |}.

(** One more backend call: the clock advances and the call is recorded. *)
Definition record (e : Event) (s : State) : State :=
  {| model_cache := model_cache s; llm_cache := llm_cache s;
     clock := S (clock s); trace := trace s ++ [e] |}.

Definition log (level msg : string) (s : State) : State :=
  {| model_cache := model_cache s; llm_cache := llm_cache s;
     clock := clock s; trace := trace s ++ [EvLog level msg] |}.

(** ** Computations that read and write the state and may raise *)

Definition M (A : Type) : Type := State -> result A * State.

Definition ret {A} (a : A) : M A := fun s => (Return a, s).
Definition raise {A} (e : string) : M A := fun s => (Raise e, s).
Definition lift {A} (r : result A) : M A := fun s => (r, s).

Definition bind {A B} (m : M A) (k : A -> M B) : M B :=
  fun s =>
    match m s with
    | (Return a, s') => k a s'
    | (Raise e, s') => (Raise e, s')
    end.

Definition gets {A} (f : State -> A) : M A := fun s => (Return (f s), s).
Definition modify (f : State -> State) : M unit := fun s => (Return tt, f s).

Declare Scope py_scope.
Delimit Scope py_scope with py.
Notation "x <- m ;; k" := (bind m (fun x => k))
  (at level 100, m at next level, right associativity) : py_scope.
Notation "m ;;; k" := (bind m (fun _ => k))
  (at level 100, right associativity) : py_scope.
Local Open Scope py_scope.

Definition logger_info (msg : string) : M unit := modify (log "INFO" msg).
Definition logger_warning (msg : string) : M unit := modify (log "WARNING" msg).
Definition logger_error (msg : string) : M unit := modify (log "ERROR" msg).

(** A backend call whose answer does not depend on the clock, and one
    whose answer may. *)
Definition call {A} (e : Event) (r : result A) : M A :=
  fun s => (r, record e s).
Definition call_at {A} (e : Event) (r : nat -> result A) : M A :=
  fun s => (r (clock s), record e s).

(** ** Requests and responses *)

Record Response : Type := { status : Z; body : json }.

(** [jsonify(fields)] and [jsonify(fields), code] *)
Definition jsonify (fields : list (string * json)) : Response :=
  {| status := 200; body := JObj fields |}.
Definition jsonify_with (fields : list (string * json)) (code : Z) : Response :=
  {| status := code; body := JObj fields |}.

(** An uploaded file of [request.files]. *)
Record FileStorage : Type := { filename : string; stream : string }.

(** [request.files] and [request.form] of a POST /caption. *)
Record CaptionRequest : Type := {
  files : gmap string FileStorage;
  form : gmap string string;
}.

(** ** Python idioms on values *)

Definition type_name (v : json) : string :=
  match v with
  | JNull => "NoneType"
  | JBool _ => "bool"
  | JInt _ => "int"
  | JFloat _ => "float"
  | JStr _ => "str"
  | JArr _ => "list"
  | JObj _ => "dict"
  end.

(** [bool(v)] *)
Definition truthy (v : json) : bool :=
  match v with
  | JNull => false
  | JBool b => b
  | JInt z => negb (z =? 0)%Z
  | JFloat q => negb (Qeq_bool q 0)
  | JStr s => negb (bool_decide (s = ""))
  | JArr l => negb (bool_decide (l = []))
  | JObj l => negb (bool_decide (l = []))
  end.

(** [a or b] on an optional str: [a] unless it is [None] or empty. *)
Definition or_str (a : option string) (b : string) : string :=
  match a with
  | Some x => if decide (x = "") then b else x
  | None => b
  end.

(** [a or b] on optional ints: [a] unless it is [None] or zero. *)
Definition or_int (a b : option Z) : option Z :=
  match a with
  | Some x => if (x =? 0)%Z then b else a
  | None => b
  end.

(** [l[i]] on a list *)
Definition list_getitem {A} (l : list A) (i : nat) : result A :=
  match l !! i with
  | Some x => Return x
  | None => Raise "list index out of range"
  end.

(** [v in d] for a dict [d] with str keys, [present] telling which:
    the key of [d] that [v] is equal to, if any.  Hashing [v] comes
    first and raises for a list or a dict. *)
Definition find_key (present : string -> bool) (v : json) : result (option string) :=
  match v with
  | JArr _ => Raise "unhashable type: 'list'"
  | JObj _ => Raise "unhashable type: 'dict'"
  | JStr k => Return (if present k then Some k else None)
  | _ => Return None
  end.

(** [data.get(k, d)], with the [AttributeError] of a value that is not a
    dict. *)
Definition data_get (data : json) (k : string) (d : json) : result json :=
  match data with
  | JObj fields => Return (default d (dict_get fields k))
  | v => Raise ("'" +:+ type_name v +:+ "' object has no attribute 'get'")
  end.

(** [request.get_json(silent=True) or {}]; the body is [None] when it is
    not JSON. *)
Definition get_json_or_empty (body : option json) : json :=
  match body with
  | Some v => if truthy v then v else JObj []
  | None => JObj []
  end.

(** [generated[len(prompt):] if generated.startswith(prompt) else generated] *)
Definition continuation (generated prompt : json) : result json :=
  match generated with
  | JStr g =>
      match prompt with
      | JStr p =>
          Return (JStr (if startswith g p
                        then slice_from (String.length p) g else g))
      | v => Raise ("startswith first arg must be str or a tuple of str, not "
                    +:+ type_name v)
      end
  | v => Raise ("'" +:+ type_name v +:+ "' object has no attribute 'startswith'")
  end.

(** The tag removal of the Florence branch:
    [if caption.startswith(prompt): caption = caption[len(prompt):].strip()] *)
Definition remove_task_prefix (prompt caption : string) : string :=
  if startswith caption prompt
  then strip (slice_from (String.length prompt) caption)
  else caption.

(** [f"Question: {question}\nAnswer: " if question else ""] *)
Definition question_prefix (question : string) : string :=
  if decide (question = "") then ""
  else "Question: " +:+ question +:+ nl +:+ "Answer: ".

(** The pad-token part of [get_llm]: the descriptor's literal id, else
    the tokenizer's pad id, else its end-of-sequence id; a tokenizer
    without a pad id is given the resolved one. *)
Definition resolve_pad (info_pad : option Z) (tok : option Tokenizer)
  : option Z * option Tokenizer :=
  match tok with
  | None => (info_pad, None)
  | Some t =>
      let pad :=
        match info_pad with
        | None => or_int (tok_pad_token_id t) (tok_eos_token_id t)
        | Some _ => info_pad
        end in
      let t' :=
        match tok_pad_token_id t, pad with
        | None, Some _ =>
            {| tok_pad_token_id := pad; tok_eos_token_id := tok_eos_token_id t |}
        | _, _ => t
        end in
      (pad, Some t')
  end.

Definition opt_str (o : option string) : json :=
  match o with Some x => JStr x | None => JNull end.

(** ** GET /models *)

Definition model_entry (kv : string * ModelInfo) : json :=
  let '(key, info) := kv in
  JObj [ ("key", JStr key);
         ("name", JStr (name info));
         ("description", JStr (description info));
         ("modes",
          match modes info with
          | Some (m :: ms) => JArr (JStr <$> dict_keys (m :: ms))
          | _ => JNull
          end);
         ("default_mode", opt_str (default_mode info)) ].

Definition llm_entry (kv : string * ModelInfo) : json :=
  let '(key, info) := kv in
  JObj [ ("key", JStr key);
         ("name", JStr (name info));
         ("description", JStr (description info)) ].

Definition list_models_of (models llms : list (string * ModelInfo)) : Response :=
  jsonify [ ("models", JArr (model_entry <$> models));
            ("llms", JArr (llm_entry <$> llms)) ].

Definition list_models : State -> Response * State :=
  fun s => (list_models_of MODELS LLM_MODELS, s).

(** ** GET /health *)
Definition health : State -> Response * State :=
  fun s => (jsonify_with [("status", JStr "ok")] 200, s).

(** ** The application, over a backend *)

Section Server.
Variable B : Backend.

(** [from_pretrained(hub, revision=rev, ...)] and [pipeline(task, model=hub)]:
    the object built now, unless construction raises. *)
Definition build (k : LoadKind) (hub : string) (rev : option string) : M Handle :=
  fun s =>
    match construct B (clock s) k hub rev with
    | Return _ =>
        (Return {| hid := clock s; hkind := k; hub := hub; hrev := rev |},
         record (EvConstruct k hub rev) s)
    | Raise e => (Raise e, record (EvConstruct k hub rev) s)
    end.

(** [model_cache[k] = m] and [llm_cache[k] = m] *)
Definition store_model (k : string) (m : LoadedModel) : M unit :=
  modify (fun s => set_model_cache (<[k := m]> (model_cache s)) s).
Definition store_llm (k : string) (m : LoadedLLM) : M unit :=
  modify (fun s => set_llm_cache (<[k := m]> (llm_cache s)) s).

(** [cache[k]] on a cache *)
Definition cache_getitem {V} (cache : gmap string V) (k : string) : M V :=
  match cache !! k with
  | Some v => ret v
  | None => raise ("'" +:+ k +:+ "'")
  end.

(** The loading arm of [get_model], by [info.get("type")]. *)
Definition load_model (model_key : string) (info : ModelInfo) : M unit :=
  if decide (type info = Some "florence") then
    processor <- build KProcessor (model info) None ;;
    mdl <- build KCausalLM (model info) None ;;
    store_model model_key (LFlorence processor mdl)
  else if decide (type info = Some "moondream") then
    mdl <- build KCausalLM (model info) (revision info) ;;
    store_model model_key (LMoondream mdl)
  else
    mdl <- build (KPipeline "image-to-text") (model info) None ;;
    store_model model_key (LPipeline mdl).

Definition get_model (model_key : string) : M LoadedModel :=
  cache <- gets model_cache ;;
  model_key <-
    (if bool_decide (is_Some (cache !! model_key)) then ret model_key
     else
       let model_key :=
         if dict_mem MODELS model_key then model_key else "blip-base" in
       info <- lift (dict_getitem MODELS model_key) ;;
       logger_info ("Loading " +:+ name info +:+ "...") ;;;
       load_model model_key info ;;;
       logger_info (name info +:+ " loaded successfully!") ;;;
       ret model_key) ;;
  cache <- gets model_cache ;;
  cache_getitem cache model_key.

Definition get_llm (model_key : json) : M LoadedLLM :=
  cache <- gets llm_cache ;;
  hit <- lift (find_key (fun k => bool_decide (is_Some (cache !! k))) model_key) ;;
  model_key <-
    match hit with
    | Some k => ret k
    | None =>
        known <- lift (find_key (dict_mem LLM_MODELS) model_key) ;;
        let model_key := default "smollm2-1.7b" known in
        info <- lift (dict_getitem LLM_MODELS model_key) ;;
        logger_info ("Loading LLM " +:+ name info +:+ "...") ;;;
        h <- build (KPipeline "text-generation") (model info) None ;;
        let '(pad, tok) := resolve_pad (pad_token_id info)
                                       (tokenizer_of B (model info)) in
        store_llm model_key
          {| pipe := {| pipe_handle := h; tokenizer := tok |};
             llm_pad_token_id := pad |} ;;;
        logger_info ("LLM " +:+ name info +:+ " loaded successfully!") ;;;
        ret model_key
    end ;;
  cache <- gets llm_cache ;;
  cache_getitem cache model_key.

(** *** Startup *)

Definition empty_state : State :=
  {| model_cache := ∅; llm_cache := ∅; clock := 0; trace := [] |}.

(** [setup_logging(app)], where [debug] is [app.debug]: the handler it
    installs is the logging library's business, its log line is kept. *)
Definition setup_logging (debug : bool) (s : State) : State :=
  if debug then s else log "INFO" "API startup" s.

(** The state [create_app] leaves: the warm-up load of "florence-2",
    whose failure is logged and swallowed. *)
Definition create_app (debug : bool) : State :=
  let s0 := setup_logging debug empty_state in
  let s1 := log "INFO" "Loading default image captioning model..." s0 in
  match get_model "florence-2" s1 with
  | (Return _, s2) => log "INFO" "Default model loaded successfully!" s2
  | (Raise e, s2) =>
      log "ERROR" ("Failed to load default model: " +:+ format_exc B e) s2
  end.

(** *** The try/except boundary of a handler *)

Definition handle_errors (what : string) (m : M Response) : State -> Response * State :=
  fun s =>
    match m s with
    | (Return r, s') => (r, s')
    | (Raise e, s') =>
        (jsonify_with [("error", JStr (what +:+ ": " +:+ e))] 500,
         log "ERROR" (what +:+ ": " +:+ format_exc B e) s')
    end.

(** *** POST /caption *)

Definition florence_caption (processor mdl : Handle) (image : Image)
    (question : string) (mode : option string) : M json :=
  let prompt := florence_prompt_for_mode mode in
  let question_prefix := question_prefix question in
  inputs <- call (EvProcess processor prompt image)
                 (process B (hub processor) prompt image) ;;
  generated_ids <- call_at (EvGenerate mdl 256 3)
                     (fun now => generate B now (hub mdl) inputs.1 inputs.2 256 3) ;;
  decoded <- call (EvDecode processor)
                  (batch_decode B (hub processor) generated_ids) ;;
  caption <- lift (list_getitem decoded 0) ;;
  let caption := remove_task_prefix prompt caption in
  ret (JStr (question_prefix +:+ caption)).

Definition roast_fallback : string :=
  "Roast this image in one short, witty sentence.".

Definition moondream_caption (mdl : Handle) (model_key : string)
    (image : Image) (question : string) (mode : option string) : M json :=
  let prompt := if decide (question = "") then None else Some (strip question) in
  let mode_to_use :=
    or_str mode
      (default "caption" (dict_get MODELS model_key ≫= default_mode)) in
  if decide (mode_to_use = "roast") then
    let prompt := or_str prompt roast_fallback in
    result <- call_at (EvQuery mdl image prompt)
                      (fun now => query B now (hub mdl) image prompt) ;;
    ret (match result with
         | MDict d => default JNull (dict_get d "answer")
         | MOther str => JStr str
         end)
  else
    result <- call_at (EvCaption mdl image)
                      (fun now => caption B now (hub mdl) image) ;;
    ret (match result with
         | MDict d => default JNull (dict_get d "caption")
         | MOther str => JStr str
         end).

Definition pipeline_caption (captioner_h : Handle) (image : Image) : M json :=
  result <- call_at (EvCaptioner captioner_h image)
                    (fun now => captioner B now (hub captioner_h) image) ;;
  first <- lift (list_getitem result 0) ;;
  lift (dict_getitem first "generated_text").

Definition caption_image_body (req : CaptionRequest) : M Response :=
  match files req !! "image" with
  | None =>
      logger_warning "Request received without image file" ;;;
      ret (jsonify_with [("error", JStr "No image provided")] 400)
  | Some file =>
      if decide (filename file = "") then
        logger_warning "Empty filename in request" ;;;
        ret (jsonify_with [("error", JStr "No image selected")] 400)
      else
        let model_key := default "florence-2" (form req !! "model") in
        let question := default "" (form req !! "question") in
        let mode := form req !! "mode" in
        image <- call (EvImageOpen (stream file)) (image_open B (stream file)) ;;
        loaded <- get_model model_key ;;
        caption <-
          match loaded with
          | LFlorence processor mdl =>
              florence_caption processor mdl image question mode
          | LMoondream mdl =>
              moondream_caption mdl model_key image question mode
          | LPipeline captioner_h =>
              pipeline_caption captioner_h image
          end ;;
        logger_info ("Image analyzed successfully with model: " +:+ model_key) ;;;
        ret (jsonify [("text", caption)])
  end.

Definition caption_image (req : CaptionRequest) : State -> Response * State :=
  handle_errors "Error analyzing image" (caption_image_body req).

(** *** POST /generate *)

(** [int(v)] *)
Definition py_int (v : json) : result Z :=
  match v with
  | JInt z => Return z
  | JBool b => Return (if b then 1 else 0)
  | JFloat q => int_of_float B q
  | JStr s => int_of_str B s
  | v => Raise ("int() argument must be a string, a bytes-like object or a real number, not '"
                +:+ type_name v +:+ "'")
  end.

(** [float(v)] *)
Definition py_float (v : json) : result Q :=
  match v with
  | JFloat q => Return q
  | JInt z => float_of_int B z
  | JBool b => Return (if b then 1%Q else 0%Q)
  | JStr s => float_of_str B s
  | v => Raise ("float() argument must be a string or a real number, not '"
                +:+ type_name v +:+ "'")
  end.

(** The literal [0.7]: the binary64 number nearest to it. *)
Definition default_temperature : Q := 3152519739159347 # 4503599627370496.

(** The four values the handler reads from the body. *)
Record GenerateArgs : Type := {
  g_prompt : json;
  g_model_key : json;
  g_max_new_tokens : Z;
  g_temperature : Q;
}.

Definition generate_args (body : option json) : M GenerateArgs :=
  let data := get_json_or_empty body in
  prompt <- lift (data_get data "prompt" (JStr "")) ;;
  model_key <- lift (data_get data "model" (JStr "smollm2-1.7b")) ;;
  max_new_tokens_raw <- lift (data_get data "max_new_tokens" (JInt 256)) ;;
  max_new_tokens <- lift (py_int max_new_tokens_raw) ;;
  temperature_raw <- lift (data_get data "temperature" (JFloat default_temperature)) ;;
  temperature <- lift (py_float temperature_raw) ;;
  ret {| g_prompt := prompt; g_model_key := model_key;
         g_max_new_tokens := max_new_tokens; g_temperature := temperature |}.

(** [pipe(prompt, ...)]: sampling, so the answer may depend on when it
    is asked. *)
Definition run_pipe (p : Pipe) (prompt : json) (max_new_tokens : Z)
    (temperature : Q) (pad : option Z)
  : M (list (list (string * json))) :=
  fun s =>
    (sample B (clock s) p prompt max_new_tokens temperature pad,
     record (EvSample p prompt max_new_tokens temperature pad) s).

Definition fstr (v : json) : string :=
  match v with JStr x => x | _ => repr B v end.

Definition generate_text_body (body : option json) : M Response :=
  args <- generate_args body ;;
  let prompt := g_prompt args in
  let model_key := g_model_key args in
  loaded <- get_llm model_key ;;
  outputs <- run_pipe (pipe loaded) prompt (g_max_new_tokens args)
                      (g_temperature args) (llm_pad_token_id loaded) ;;
  first <- lift (list_getitem outputs 0) ;;
  generated <- lift (dict_getitem first "generated_text") ;;
  text <- lift (continuation generated prompt) ;;
  logger_info ("Text generated successfully with model: " +:+ fstr model_key) ;;;
  ret (jsonify [("text", text); ("model", model_key)]).

Definition generate_text (body : option json) : State -> Response * State :=
  handle_errors "Error generating text" (generate_text_body body).

(** *** The routes *)

Inductive Request : Type :=
| GetModels
| PostCaption (req : CaptionRequest)
| PostGenerate (body : option json)
| GetHealth.

Definition serve (r : Request) : State -> Response * State :=
  match r with
  | GetModels => list_models
  | PostCaption req => caption_image req
  | PostGenerate body => generate_text body
  | GetHealth => health
  end.

(** The state after a sequence of requests, served one at a time. *)
Fixpoint serve_all (rs : list Request) (s : State) : State :=
  match rs with
  | [] => s
  | r :: rs' => serve_all rs' (serve r s).2
  end.

End Server.

(** ** A concrete backend

    Small deterministic stand-ins for the collaborators, to run the
    application on concrete requests. *)
Module Demo.

Fixpoint digits (s : string) (acc : Z) : option Z :=
  match s with
  | EmptyString => Some acc
  | String c r =>
      let n := Z.of_nat (nat_of_ascii c) in
      if (48 <=? n)%Z && (n <=? 57)%Z then digits r (10 * acc + (n - 48)) else None
  end.

Definition parse_int (s : string) : result Z :=
  match s with
  | EmptyString => Raise "invalid literal for int() with base 10: ''"
  | _ =>
      match digits s 0 with
      | Some z => Return z
      | None => Raise ("invalid literal for int() with base 10: '" +:+ s +:+ "'")
      end
  end.

Definition codes (s : string) : Tensor :=
  (fun c => Z.of_nat (nat_of_ascii c)) <$> list_ascii_of_string s.

Definition uncodes (t : Tensor) : string :=
  string_of_list_ascii ((fun z => ascii_of_nat (Z.to_nat z)) <$> t).

Definition backend : Backend :=
  {| image_open := fun stream =>
       if decide (stream = "") then Raise "cannot identify image file"
       else Return stream;
     construct := fun _ _ _ _ => Return tt;
     tokenizer_of := fun _ =>
       Some {| tok_pad_token_id := None; tok_eos_token_id := Some 2 |};
     captioner := fun _ _ _ =>
       Return [[("generated_text", JStr "a photography of a cat")]];
     process := fun _ text _ => Return (codes text, []);
     generate := fun _ _ input_ids _ _ _ => Return input_ids;
     batch_decode := fun _ ids =>
       Return [uncodes ids +:+ " A cat sits on a mat. "];
     query := fun _ _ _ prompt =>
       Return (MDict [("answer", JStr ("re: " +:+ prompt))]);
     caption := fun _ _ _ => Return (MDict [("caption", JStr "a cat")]);
     sample := fun _ _ prompt _ _ _ =>
       match prompt with
       | JStr p => Return [[("generated_text", JStr (p +:+ " world"))]]
       | _ => Raise "prompt must be a string"
       end;
     int_of_str := parse_int;
     float_of_str := fun s =>
       Raise ("could not convert string to float: '" +:+ s +:+ "'");
     int_of_float := fun q => Return (Z.quot (Qnum q) (Zpos (Qden q)));
     float_of_int := fun z => Return (inject_Z z);
     repr := fun _ => "<object>";
     format_exc := fun e => "Traceback (most recent call last): " +:+ e |}.

(** A backend whose text pipeline ignores the prompt. *)
Definition canned (text : string) : Backend :=
  {| image_open := image_open backend;
     construct := construct backend;
     tokenizer_of := tokenizer_of backend;
     captioner := captioner backend;
     process := process backend;
     generate := generate backend;
     batch_decode := batch_decode backend;
     query := query backend;
     caption := caption backend;
     sample := fun _ _ _ _ _ _ => Return [[("generated_text", JStr text)]];
     int_of_str := int_of_str backend;
     float_of_str := float_of_str backend;
     int_of_float := int_of_float backend;
     float_of_int := float_of_int backend;
     repr := repr backend;
     format_exc := format_exc backend |}.

(** A request uploading [cat.png], with the given form fields. *)
Definition upload (fields : list (string * string)) : CaptionRequest :=
  {| files := {[ "image" := {| filename := "cat.png"; stream := "PNG" |} ]};
     form := list_to_map fields |}.

End Demo.

(** ** Vocabulary of the properties *)

(** [v[k]] of a JSON object. *)
Definition json_field (k : string) (v : json) : option json :=
  match v with
  | JObj fields => dict_get fields k
  | _ => None
  end.

(** The key set of each cache is a subset of its registry's key set. *)
Definition cache_keys_registered (s : State) : Prop :=
  dom (model_cache s) ⊆@{gset string} list_to_set (dict_keys MODELS)
  /\ dom (llm_cache s) ⊆@{gset string} list_to_set (dict_keys LLM_MODELS).

(** A computation keeps the invariant, whether it returns or raises. *)
Definition preserves {A} (m : M A) : Prop :=
  forall s, cache_keys_registered s -> cache_keys_registered (m s).2.

Definition is_construct (e : Event) : bool :=
  match e with EvConstruct _ _ _ => true | _ => false end.

(** How many backend objects were built so far. *)
Definition constructions (s : State) : nat :=
  length (List.filter is_construct (trace s)).

Definition blip_base_hub : string := "Salesforce/blip-image-captioning-base".
Definition smollm2_hub : string := "HuggingFaceTB/SmolLM2-1.7B-Instruct".

(** The request with its [model] form field set to [k]. *)
Definition with_model (k : string) (req : CaptionRequest) : CaptionRequest :=
  {| files := files req; form := <["model" := k]> (form req) |}.

(** The values [/generate] runs with when the body gives none. *)
Definition default_args : GenerateArgs :=
  {| g_prompt := JStr "";
     g_model_key := JStr "smollm2-1.7b";
     g_max_new_tokens := 256;
     g_temperature := default_temperature |}.

(** The sampling calls made so far, with their arguments. *)
Definition samples (s : State) : list (json * Z * Q) :=
  omap (fun e => match e with
                 | EvSample _ prompt n t _ => Some (prompt, n, t)
                 | _ => None
                 end) (trace s).

(** The claim's words: the decoded caption with the prompt tag stripped
    from its front when it was a prefix. *)
Definition tag_removed (tag decoded : string) : string :=
  if startswith decoded tag then slice_from (String.length tag) decoded
  else decoded.

(** The query-style calls made so far, with their arguments. *)
Definition queries (s : State) : list (Image * string) :=
  omap (fun e => match e with
                 | EvQuery _ img prompt => Some (img, prompt)
                 | _ => None
                 end) (trace s).

(** A relation between a state and a later one that neither a log line
    nor a backend call other than building an object breaks. *)
Class Silent (R : relation State) : Prop := {
  silent_preorder :: PreOrder R;
  silent_record : forall e s, is_construct e = false -> R s (record e s);
  silent_log : forall level msg s, R s (log level msg s);
}.

(** Such a relation that building a backend object does not break either. *)
Class Buildable (R : relation State) : Prop :=
  buildable_record : forall k h rev s, R s (record (EvConstruct k h rev) s).

(** Whatever a computation does, returning or raising, the state it
    leaves is related to the one it started from. *)
Definition respects (R : relation State) {A} (m : M A) : Prop :=
  forall s, R s (m s).2.

(** Both caches are as they were. *)
Definition same_caches : relation State :=
  fun s s' => model_cache s' = model_cache s /\ llm_cache s' = llm_cache s.

(** The key [get_model] loads and stores under when [q] is not cached. *)
Definition model_key_for (q : string) : string :=
  if dict_mem MODELS q then q else "blip-base".

(** The key [get_llm] loads and stores under when [v] is not cached. *)
Definition llm_key_for (v : json) : string :=
  match v with
  | JStr k => if dict_mem LLM_MODELS k then k else "smollm2-1.7b"
  | _ => "smollm2-1.7b"
  end.

(** The entry of the text cache that [v] names, if any. *)
Definition cached_llm (s : State) (v : json) : option LoadedLLM :=
  match v with
  | JStr k => llm_cache s !! k
  | _ => None
  end.

(** The text cache is as it was; the image cache is as it was. *)
Definition same_llm_cache : relation State :=
  fun s s' => llm_cache s' = llm_cache s.
Definition same_model_cache : relation State :=
  fun s s' => model_cache s' = model_cache s.

(** Both caches are as they were and no backend object was built. *)
Definition nothing_built : relation State :=
  fun s s' => same_caches s s' /\ constructions s' = constructions s.

(** No cache entry is dropped, and an entry keeps its value unless it is
    the one under the fallback key of its cache. *)
Definition entries_kept : relation State :=
  fun s s' =>
    (forall k, is_Some (model_cache s !! k) -> is_Some (model_cache s' !! k))
    /\ (forall k l, k <> "blip-base" -> model_cache s !! k = Some l ->
                    model_cache s' !! k = Some l)
    /\ (forall k, is_Some (llm_cache s !! k) -> is_Some (llm_cache s' !! k))
    /\ (forall k l, k <> "smollm2-1.7b" -> llm_cache s !! k = Some l ->
                    llm_cache s' !! k = Some l).

(** The entry [l] of the image cache is what loading the descriptor
    [info] builds: the adapter its [type] selects, built from its hub
    name (and its pinned revision for the conversational model). *)
Definition built_from (info : ModelInfo) (l : LoadedModel) : Prop :=
  match l with
  | LFlorence p m =>
      type info = Some "florence"
      /\ hkind p = KProcessor /\ hub p = model info /\ hrev p = None
      /\ hkind m = KCausalLM /\ hub m = model info /\ hrev m = None
  | LMoondream m =>
      type info = Some "moondream"
      /\ hkind m = KCausalLM /\ hub m = model info /\ hrev m = revision info
  | LPipeline m =>
      type info <> Some "florence" /\ type info <> Some "moondream"
      /\ hkind m = KPipeline "image-to-text" /\ hub m = model info
      /\ hrev m = None
  end.

(** The entry [l] of the text cache is what loading [info] builds: a
    text-generation pipeline of its hub name; the pad id of the
    descriptor when it has one; and a tokenizer that has a pad id
    whenever a pad id was found. *)
Definition llm_built_from (info : ModelInfo) (l : LoadedLLM) : Prop :=
  hkind (pipe_handle (pipe l)) = KPipeline "text-generation"
  /\ hub (pipe_handle (pipe l)) = model info
  /\ hrev (pipe_handle (pipe l)) = None
  /\ (forall p, pad_token_id info = Some p -> llm_pad_token_id l = Some p)
  /\ (tokenizer (pipe l) = None -> llm_pad_token_id l = pad_token_id info)
  /\ (forall t, tokenizer (pipe l) = Some t -> llm_pad_token_id l <> None ->
                tok_pad_token_id t <> None).

(** Every cache entry was built from the descriptor of its key. *)
Definition caches_coherent (s : State) : Prop :=
  (forall k l, model_cache s !! k = Some l ->
               exists info, dict_get MODELS k = Some info /\ built_from info l)
  /\ (forall k l, llm_cache s !! k = Some l ->
                  exists info, dict_get LLM_MODELS k = Some info
                               /\ llm_built_from info l).

(** Coherent caches stay coherent. *)
Definition keeps_coherent : relation State :=
  fun s s' => caches_coherent s -> caches_coherent s'.

(** Backends that differ from a given one in how objects are built, in
    what the image-to-text pipeline answers, or in what the text pipeline
    answers. *)
Definition with_construct
    (c : nat -> LoadKind -> string -> option string -> result unit)
    (B : Backend) : Backend :=
  {| image_open := image_open B; construct := c;
     tokenizer_of := tokenizer_of B; captioner := captioner B;
     process := process B; generate := generate B;
     batch_decode := batch_decode B; query := query B; caption := caption B;
     sample := sample B; int_of_str := int_of_str B;
     float_of_str := float_of_str B; int_of_float := int_of_float B;
     float_of_int := float_of_int B; repr := repr B;
     format_exc := format_exc B |}.

Definition with_captioner
    (c : nat -> string -> Image -> result (list (list (string * json))))
    (B : Backend) : Backend :=
  {| image_open := image_open B; construct := construct B;
     tokenizer_of := tokenizer_of B; captioner := c;
     process := process B; generate := generate B;
     batch_decode := batch_decode B; query := query B; caption := caption B;
     sample := sample B; int_of_str := int_of_str B;
     float_of_str := float_of_str B; int_of_float := int_of_float B;
     float_of_int := float_of_int B; repr := repr B;
     format_exc := format_exc B |}.

Definition with_sample
    (f : nat -> Pipe -> json -> Z -> Q -> option Z ->
         result (list (list (string * json))))
    (B : Backend) : Backend :=
  {| image_open := image_open B; construct := construct B;
     tokenizer_of := tokenizer_of B; captioner := captioner B;
     process := process B; generate := generate B;
     batch_decode := batch_decode B; query := query B; caption := caption B;
     sample := f; int_of_str := int_of_str B;
     float_of_str := float_of_str B; int_of_float := int_of_float B;
     float_of_int := float_of_int B; repr := repr B;
     format_exc := format_exc B |}.

(** No object can be built; and: processors can, models cannot. *)
Definition offline : Backend :=
  with_construct (fun _ _ _ _ => Raise "connection refused") Demo.backend.

Definition no_weights : Backend :=
  with_construct
    (fun _ k _ _ =>
       match k with
       | KProcessor => Return tt
       | _ => Raise "weights not found"
       end) Demo.backend.

(** Every character of the string is white space. *)
Fixpoint blank (s : string) : bool :=
  match s with
  | EmptyString => true
  | String c r => isspace c && blank r
  end.

(** * Properties *)

(** ** Strings and dictionaries *)

Lemma dict_mem_true {V} (d : list (string * V)) (k : string) :
  dict_mem d k = true <-> k ∈ dict_keys d.
Proof.
  unfold dict_mem, dict_keys. rewrite bool_decide_eq_true.
  induction d as [|[k' v] d IH]; simpl.
  - split; [intros [? ?]; discriminate | intros H; inversion H].
  - destruct (decide (k = k')) as [->|Hne].
    + split; [intros _; left | eauto].
    + rewrite IH. split; [intros; by right |].
      intros H. inversion H; subst; [congruence | done].
Qed.

Lemma dict_mem_false {V} (d : list (string * V)) (k : string) :
  dict_mem d k = false <-> dict_get d k = None.
Proof.
  unfold dict_mem. rewrite bool_decide_eq_false.
  split.
  - intros H. destruct (dict_get d k); [| done]. destruct H. eauto.
  - intros -> [? ?]. discriminate.
Qed.

Lemma dict_getitem_mem {V} (d : list (string * V)) (k : string) :
  dict_mem d k = true -> exists v, dict_get d k = Some v /\ dict_getitem d k = Return v.
Proof.
  unfold dict_mem, dict_getitem. rewrite bool_decide_eq_true.
  intros [v Hv]. rewrite Hv. eauto.
Qed.

Lemma append_cons (c : ascii) (p t : string) :
  String c p +:+ t = String c (p +:+ t).
Proof. reflexivity. Qed.

Lemma append_assoc (a b c : string) : (a +:+ b) +:+ c = a +:+ (b +:+ c).
Proof.
  induction a as [|x a IH]; [done |].
  rewrite !append_cons. by f_equal.
Qed.

Lemma startswith_app (p t : string) : startswith (p +:+ t) p = true.
Proof. unfold startswith. induction p as [|c p IH]; simpl.
  - by destruct t.
  - destruct (Ascii.ascii_dec c c); [done | congruence].
Qed.

Lemma startswith_inv (g p : string) :
  startswith g p = true -> g = p +:+ slice_from (String.length p) g.
Proof.
  unfold startswith. revert g. induction p as [|c p IH]; intros g; simpl.
  - done.
  - destruct g as [|c' g]; simpl; [done |].
    destruct (Ascii.ascii_dec c c') as [->|]; [| done].
    intros H. rewrite append_cons. f_equal. by apply IH.
Qed.

Lemma slice_from_app (p t : string) : slice_from (String.length p) (p +:+ t) = t.
Proof. induction p as [|c p IH]; simpl; [by destruct t | done]. Qed.

Example strip_both_ends : strip ("  a cat " +:+ nl) = "a cat".
Proof. reflexivity. Qed.

Example strip_blank : strip "   " = "".
Proof. reflexivity. Qed.

Example strip_keeps_inner_space : strip "a  b" = "a  b".
Proof. reflexivity. Qed.

(** [g.startswith(p)] says exactly that [g] is [p] followed by something. *)
Lemma startswith_spec (g p : string) :
  startswith g p = true <-> exists t, g = p +:+ t.
Proof.
  split.
  - intros H. eexists. by apply startswith_inv.
  - intros [t ->]. apply startswith_app.
Qed.

(** ** Prompt-tag resolution *)

Lemma prompt_for_mode_known (info : ModelInfo) (m t : string) :
  dict_get (default [] (modes info)) m = Some t ->
  prompt_for_mode info (Some m) = t.
Proof. intros H. unfold prompt_for_mode. simpl. by rewrite H. Qed.

Lemma prompt_for_mode_unknown (info : ModelInfo) (mode : option string) :
  mode = None \/ (exists m, mode = Some m /\ dict_get (default [] (modes info)) m = None) ->
  prompt_for_mode info mode =
  default "<MORE_DETAILED_CAPTION>"
    (dict_get (default [] (modes info))
              (default "more_detailed" (default_mode info))).
Proof.
  intros [-> | (m & -> & H)]; unfold prompt_for_mode; simpl; [done |].
  by rewrite H.
Qed.

(** C6: the prompt tag of a mode that is a key of the descriptor's mode
    table is that table's tag; every other mode, the absent one included,
    gets the tag of the descriptor's default mode, hence the same tag as
    asking for the default mode by name; and when the table has no tag for
    the default mode either, the tag is "<MORE_DETAILED_CAPTION>".  This
    holds for any descriptor in the place of [MODELS["florence-2"]], and
    on the registry as it is the default mode is "more_detailed" and its
    tag "<MORE_DETAILED_CAPTION>". *)
Theorem florence_prompt_for_mode_resolution :
  (forall (info : ModelInfo) (mode : option string),
      let tags := default [] (modes info) in
      let dm := default "more_detailed" (default_mode info) in
      (forall m t, mode = Some m -> dict_get tags m = Some t ->
                   prompt_for_mode info mode = t)
      /\ (mode = None \/ (exists m, mode = Some m /\ dict_get tags m = None) ->
          prompt_for_mode info mode = prompt_for_mode info (Some dm)
          /\ (forall t, dict_get tags dm = Some t -> prompt_for_mode info mode = t)
          /\ (dict_get tags dm = None ->
              prompt_for_mode info mode = "<MORE_DETAILED_CAPTION>")))
  /\ (forall mode, florence_prompt_for_mode mode = prompt_for_mode florence_info mode)
  /\ modes florence_info = Some FLORENCE_TAGS
  /\ default_mode florence_info = Some "more_detailed"
  /\ (forall m t, dict_get FLORENCE_TAGS m = Some t ->
                  florence_prompt_for_mode (Some m) = t)
  /\ (forall mode,
         mode = None \/ (exists m, mode = Some m /\ dict_get FLORENCE_TAGS m = None) ->
         florence_prompt_for_mode mode = florence_prompt_for_mode (Some "more_detailed")
         /\ florence_prompt_for_mode mode = "<MORE_DETAILED_CAPTION>").
Proof.
  split; [| repeat split].
  - intros info mode tags dm. split.
    + intros m t -> H. by apply prompt_for_mode_known.
    + intros H. rewrite (prompt_for_mode_unknown _ _ H). repeat split.
      * unfold prompt_for_mode. simpl. fold tags dm.
        by destruct (dict_get tags dm).
      * intros t Ht. fold tags dm. by rewrite Ht.
      * intros Ht. fold tags dm. by rewrite Ht.
  - intros m t H. by apply prompt_for_mode_known.
  - unfold florence_prompt_for_mode.
    by rewrite (prompt_for_mode_unknown florence_info mode).
  - unfold florence_prompt_for_mode.
    by rewrite (prompt_for_mode_unknown florence_info mode).
Qed.

(** ** GET /models *)

Lemma registry_keys_distinct :
  NoDup (dict_keys MODELS) /\ NoDup (dict_keys LLM_MODELS).
Proof. split; apply (bool_decide_unpack _); by vm_compute. Qed.

(** C9: the response of GET /models has one entry per registered image
    model and one per registered text model, in registry order, and no
    identifier occurs twice; an image entry carries key, name,
    description, the names of the descriptor's modes (null when it has
    none) and its default mode (null when it has none); a text entry
    carries key, name and description.  The handler leaves the state as
    it was. *)
Theorem list_models_lists_registries :
  (forall (models llms : list (string * ModelInfo)),
      exists ms ls,
        list_models_of models llms = jsonify [("models", JArr ms); ("llms", JArr ls)]
        /\ json_field "key" <$> ms = (fun k => Some (JStr k)) <$> dict_keys models
        /\ json_field "key" <$> ls = (fun k => Some (JStr k)) <$> dict_keys llms
        /\ (forall i key info, models !! i = Some (key, info) ->
              ms !! i = Some
                (JObj [ ("key", JStr key);
                        ("name", JStr (name info));
                        ("description", JStr (description info));
                        ("modes",
                         match modes info with
                         | Some (m :: tbl) => JArr (JStr <$> (m :: tbl).*1)
                         | _ => JNull
                         end);
                        ("default_mode", opt_str (default_mode info)) ]))
        /\ (forall i key info, llms !! i = Some (key, info) ->
              ls !! i = Some
                (JObj [ ("key", JStr key);
                        ("name", JStr (name info));
                        ("description", JStr (description info)) ])))
  /\ (forall s, list_models s = (list_models_of MODELS LLM_MODELS, s))
  /\ NoDup (dict_keys MODELS) /\ NoDup (dict_keys LLM_MODELS)
  /\ dict_keys MODELS =
       ["blip-base"; "blip-large"; "vit-gpt2"; "florence-2"; "moondream-2"]
  /\ dict_keys LLM_MODELS =
       ["smollm2-1.7b"; "phi3-mini"; "gemma2-2b"; "qwen2.5-1.5b"; "tinyllama-1.1b"].
Proof.
  split; [| split; [done | split; [apply registry_keys_distinct |
            split; [apply registry_keys_distinct | done]]]].
  intros models llms.
  exists (model_entry <$> models), (llm_entry <$> llms).
  split; [done |]. repeat split.
  - unfold dict_keys. rewrite <- !list_fmap_compose.
    apply list_fmap_ext. by intros _ [key info] _.
  - unfold dict_keys. rewrite <- !list_fmap_compose.
    apply list_fmap_ext. by intros _ [key info] _.
  - intros i key info H. rewrite list_lookup_fmap, H. done.
  - intros i key info H. rewrite list_lookup_fmap, H. done.
Qed.

(** ** POST /caption without an upload *)

(** C8: a POST /caption whose form has no [image] file is answered 400
    with the error "No image provided", and one whose [image] file has
    the empty filename is answered 400 with "No image selected".  In both
    cases the only thing the handler does is write a warning to the log:
    the caches and the count of backend calls are as before, so nothing
    was loaded and no inference ran. *)
Theorem caption_image_requires_upload (B : Backend) (req : CaptionRequest) (s : State) :
  (files req !! "image" = None ->
   caption_image B req s =
   ({| status := 400; body := JObj [("error", JStr "No image provided")] |},
    {| model_cache := model_cache s; llm_cache := llm_cache s; clock := clock s;
       trace := trace s ++ [EvLog "WARNING" "Request received without image file"] |}))
  /\ (forall file, files req !! "image" = Some file -> filename file = "" ->
      caption_image B req s =
      ({| status := 400; body := JObj [("error", JStr "No image selected")] |},
       {| model_cache := model_cache s; llm_cache := llm_cache s; clock := clock s;
          trace := trace s ++ [EvLog "WARNING" "Empty filename in request"] |})).
Proof.
  split.
  - intros H. unfold caption_image, handle_errors, caption_image_body.
    by rewrite H.
  - intros file H Hname.
    unfold caption_image, handle_errors, caption_image_body.
    rewrite H. by rewrite decide_True.
Qed.

(** ** The model caches *)

Section CacheFacts.
Variable B : Backend.

Lemma get_model_hit (k : string) (l : LoadedModel) (s : State) :
  model_cache s !! k = Some l -> get_model B k s = (Return l, s).
Proof.
  intros H. unfold get_model, bind, gets, cache_getitem, ret. simpl.
  rewrite bool_decide_eq_true_2 by (rewrite H; eauto). by rewrite H.
Qed.

Lemma get_llm_hit (k : string) (l : LoadedLLM) (s : State) :
  llm_cache s !! k = Some l -> get_llm B (JStr k) s = (Return l, s).
Proof.
  intros H. unfold get_llm, bind, gets, lift, cache_getitem, ret. simpl.
  rewrite bool_decide_eq_true_2 by (rewrite H; eauto). by rewrite H.
Qed.

(** What [get_model] does for a key that is not in the cache: it loads
    the descriptor of the key if the key is registered, of "blip-base"
    otherwise, and answers with what it stored. *)
Lemma get_model_miss (k : string) (s : State) :
  model_cache s !! k = None ->
  get_model B k s =
  (let k' := if dict_mem MODELS k then k else "blip-base" in
   info <- lift (dict_getitem MODELS k') ;;
   logger_info ("Loading " +:+ name info +:+ "...") ;;;
   load_model B k' info ;;;
   logger_info (name info +:+ " loaded successfully!") ;;;
   cache <- gets model_cache ;;
   cache_getitem cache k') s.
Proof.
  intros H. unfold get_model, bind at 1 2, gets at 1. simpl.
  rewrite bool_decide_eq_false_2 by (rewrite H; by intros [? ?]).
  unfold bind, lift, ret, gets.
  repeat (case_match; simplify_eq; simpl in *; try done).
Qed.

Lemma get_llm_miss (k : string) (s : State) :
  llm_cache s !! k = None ->
  get_llm B (JStr k) s =
  (let k' := if dict_mem LLM_MODELS k then k else "smollm2-1.7b" in
   info <- lift (dict_getitem LLM_MODELS k') ;;
   logger_info ("Loading LLM " +:+ name info +:+ "...") ;;;
   h <- build B (KPipeline "text-generation") (model info) None ;;
   let '(pad, tok) := resolve_pad (pad_token_id info) (tokenizer_of B (model info)) in
   store_llm k' {| pipe := {| pipe_handle := h; tokenizer := tok |};
                   llm_pad_token_id := pad |} ;;;
   logger_info ("LLM " +:+ name info +:+ " loaded successfully!") ;;;
   cache <- gets llm_cache ;;
   cache_getitem cache k') s.
Proof.
  intros H. unfold get_llm, bind at 1 2, gets at 1, lift at 1. simpl.
  rewrite bool_decide_eq_false_2 by (rewrite H; by intros [? ?]).
  unfold bind, lift, ret, gets. simpl.
  destruct (dict_mem LLM_MODELS k); simpl;
    repeat (case_match; simplify_eq; simpl in *; try done).
Qed.

End CacheFacts.

(** ** The cache keys are registry keys *)

Lemma registered_record (e : Event) (s : State) :
  cache_keys_registered s -> cache_keys_registered (record e s).
Proof. done. Qed.

Lemma registered_log (level msg : string) (s : State) :
  cache_keys_registered s -> cache_keys_registered (log level msg s).
Proof. done. Qed.

Lemma preserves_ret {A} (a : A) : preserves (ret a).
Proof. by intros s H. Qed.

Lemma preserves_raise {A} (e : string) : preserves (@raise A e).
Proof. by intros s H. Qed.

Lemma preserves_lift {A} (r : result A) : preserves (lift r).
Proof. by intros s H. Qed.

Lemma preserves_gets {A} (f : State -> A) : preserves (gets f).
Proof. by intros s H. Qed.

Lemma preserves_call {A} (e : Event) (r : result A) : preserves (call e r).
Proof. by intros s H. Qed.

Lemma preserves_call_at {A} (e : Event) (r : nat -> result A) :
  preserves (call_at e r).
Proof. by intros s H. Qed.

Lemma preserves_logger_info (msg : string) : preserves (logger_info msg).
Proof. by intros s H. Qed.

Lemma preserves_logger_warning (msg : string) : preserves (logger_warning msg).
Proof. by intros s H. Qed.

Lemma preserves_bind {A C} (m : M A) (k : A -> M C) :
  preserves m -> (forall a, preserves (k a)) -> preserves (bind m k).
Proof.
  intros Hm Hk s H. unfold bind. specialize (Hm s H).
  destruct (m s) as [[a|e] s']; simpl in *; [by apply Hk | done].
Qed.

(** The continuation of a pure step may use what the step returned. *)
Lemma preserves_bind_lift {A C} (r : result A) (k : A -> M C) :
  (forall a, r = Return a -> preserves (k a)) -> preserves (bind (lift r) k).
Proof.
  intros Hk s H. unfold bind, lift. destruct r as [a|e]; simpl; [| done].
  by apply Hk.
Qed.

Lemma preserves_build (B : Backend) (k : LoadKind) (h : string) (rev : option string) :
  preserves (build B k h rev).
Proof. intros s H. unfold build. by destruct (construct B (clock s) k h rev). Qed.

Lemma preserves_run_pipe (B : Backend) p prompt n t pad :
  preserves (run_pipe B p prompt n t pad).
Proof. by intros s H. Qed.

Lemma preserves_store_model (k : string) (l : LoadedModel) :
  dict_mem MODELS k = true -> preserves (store_model k l).
Proof.
  intros Hk s [Hm Hl]. split; [| done].
  change (dom (<[k:=l]> (model_cache s)) ⊆@{gset string} list_to_set (dict_keys MODELS)).
  apply dict_mem_true in Hk. rewrite dom_insert_L.
  apply union_subseteq. split; [| done].
  apply singleton_subseteq_l. apply elem_of_list_to_set, Hk.
Qed.

Lemma preserves_store_llm (k : string) (l : LoadedLLM) :
  dict_mem LLM_MODELS k = true -> preserves (store_llm k l).
Proof.
  intros Hk s [Hm Hl]. split; [done |].
  change (dom (<[k:=l]> (llm_cache s)) ⊆@{gset string} list_to_set (dict_keys LLM_MODELS)).
  apply dict_mem_true in Hk. rewrite dom_insert_L.
  apply union_subseteq. split; [| done].
  apply singleton_subseteq_l. apply elem_of_list_to_set, Hk.
Qed.

Lemma preserves_cache_getitem {V} (cache : gmap string V) (k : string) :
  preserves (cache_getitem cache k).
Proof. intros s H. unfold cache_getitem. by destruct (cache !! k). Qed.

Create HintDb preserve.
#[local] Hint Resolve preserves_ret preserves_raise preserves_lift preserves_gets
  preserves_call preserves_call_at preserves_logger_info preserves_logger_warning
  preserves_build preserves_run_pipe preserves_cache_getitem : preserve.

(** Split a computation along its binds. *)
Ltac preserve_step :=
  apply preserves_bind; [solve [eauto with preserve] | intros ?].

Ltac preserve_steps :=
  repeat first
    [ solve [eauto with preserve]
    | apply preserves_bind; [| intros ?] ].

Section Invariant.
Variable B : Backend.

Lemma fallback_model_registered (k : string) :
  dict_mem MODELS (if dict_mem MODELS k then k else "blip-base") = true.
Proof. by destruct (dict_mem MODELS k) eqn:E. Qed.

Lemma preserves_load_model (k : string) (info : ModelInfo) :
  dict_mem MODELS k = true -> preserves (load_model B k info).
Proof.
  intros Hk. unfold load_model.
  repeat case_decide; preserve_steps; by apply preserves_store_model.
Qed.

Lemma preserves_get_model (k : string) : preserves (get_model B k).
Proof.
  unfold get_model. preserve_steps.
  case_bool_decide; preserve_steps.
  apply preserves_load_model, fallback_model_registered.
Qed.

Lemma find_key_present (present : string -> bool) (v : json) (k : string) :
  find_key present v = Return (Some k) -> present k = true.
Proof.
  destruct v as [| | | |x| |]; simpl; intros H; simplify_eq.
  destruct (present x) eqn:E; by simplify_eq.
Qed.

Lemma preserves_get_llm (v : json) : preserves (get_llm B v).
Proof.
  unfold get_llm. preserve_step. preserve_step.
  apply preserves_bind; [| intros; preserve_steps].
  destruct a0 as [k|]; [preserve_steps |].
  apply preserves_bind_lift. intros known Hknown. do 3 preserve_step.
  destruct (resolve_pad _ _) as [pad tok].
  apply preserves_bind; [| intros; preserve_steps].
  apply preserves_store_llm.
  destruct known as [k|]; [| done]. by apply find_key_present in Hknown.
Qed.

End Invariant.

Section Handlers.
Variable B : Backend.

Lemma registered_handle_errors (what : string) (m : M Response) (s : State) :
  preserves m -> cache_keys_registered s ->
  cache_keys_registered (handle_errors B what m s).2.
Proof.
  intros Hm H. unfold handle_errors. specialize (Hm s H).
  by destruct (m s) as [[r|e] s'].
Qed.

Lemma preserves_caption_image_body (req : CaptionRequest) :
  preserves (caption_image_body B req).
Proof.
  unfold caption_image_body.
  destruct (files req !! "image") as [file|]; [| preserve_steps].
  case_decide; [preserve_steps |].
  preserve_step.
  apply preserves_bind; [apply preserves_get_model | intros loaded].
  apply preserves_bind; [| intros; preserve_steps].
  destruct loaded.
  - unfold florence_caption. preserve_steps.
  - unfold moondream_caption. case_decide; preserve_steps.
  - unfold pipeline_caption. preserve_steps.
Qed.

Lemma preserves_generate_text_body (body : option json) :
  preserves (generate_text_body B body).
Proof.
  unfold generate_text_body.
  apply preserves_bind; [unfold generate_args; preserve_steps | intros args].
  apply preserves_bind; [apply preserves_get_llm | intros loaded].
  preserve_steps.
Qed.

Lemma registered_serve (r : Request) (s : State) :
  cache_keys_registered s -> cache_keys_registered (serve B r s).2.
Proof.
  intros H. destruct r as [|req|body|]; simpl; try done.
  - apply registered_handle_errors; [apply preserves_caption_image_body | done].
  - apply registered_handle_errors; [apply preserves_generate_text_body | done].
Qed.

Lemma registered_serve_all (rs : list Request) (s : State) :
  cache_keys_registered s -> cache_keys_registered (serve_all B rs s).
Proof.
  revert s. induction rs as [|r rs IH]; intros s H; simpl; [done |].
  by apply IH, registered_serve.
Qed.

Lemma registered_empty_state : cache_keys_registered empty_state.
Proof.
  split; unfold empty_state; cbn [model_cache llm_cache];
    rewrite dom_empty_L; apply empty_subseteq.
Qed.

Lemma registered_create_app (debug : bool) :
  cache_keys_registered (create_app B debug).
Proof.
  unfold create_app.
  set (s1 := log "INFO" "Loading default image captioning model..." _).
  assert (H1 : cache_keys_registered s1).
  { apply registered_log. unfold setup_logging.
    destruct debug; [| apply registered_log]; apply registered_empty_state. }
  pose proof (preserves_get_model B "florence-2" s1 H1) as H2.
  destruct (get_model B "florence-2" s1) as [[l|e] s2]; by apply registered_log.
Qed.

End Handlers.

Lemma registered_size (s : State) :
  cache_keys_registered s ->
  (size (model_cache s) <= length MODELS)%nat
  /\ (size (llm_cache s) <= length LLM_MODELS)%nat.
Proof.
  intros [Hm Hl]. destruct registry_keys_distinct as [Dm Dl].
  split.
  - rewrite <- size_dom. apply subseteq_size in Hm.
    rewrite (size_list_to_set _ Dm) in Hm.
    unfold dict_keys in Hm. rewrite length_fmap in Hm. lia.
  - rewrite <- size_dom. apply subseteq_size in Hl.
    rewrite (size_list_to_set _ Dl) in Hl.
    unfold dict_keys in Hl. rewrite length_fmap in Hl. lia.
Qed.

(** ** What a returning load leaves in the cache *)

Lemma bind_return_inv {A C} (m : M A) (k : A -> M C) (s s' : State) (c : C) :
  bind m k s = (Return c, s') ->
  exists a s1, m s = (Return a, s1) /\ k a s1 = (Return c, s').
Proof.
  unfold bind. destruct (m s) as [[a|e] s1]; [eauto | discriminate].
Qed.

Tactic Notation "bind_inv" hyp(H) "as" ident(a) ident(s) ident(E) :=
  apply bind_return_inv in H as (a & s & E & H).

Ltac bind_skip H :=
  let a := fresh "a" in
  let s := fresh "s" in
  let E := fresh "E" in
  apply bind_return_inv in H as (a & s & E & H); clear E.

Section Loads.
Variable B : Backend.

(** The key under which [get_model] looks its answer up: the requested
    key when it is cached or registered, "blip-base" otherwise. *)
Lemma get_model_returns_cached (k : string) (s s' : State) (l : LoadedModel) :
  get_model B k s = (Return l, s') ->
  model_cache s' !!
    (if bool_decide (is_Some (model_cache s !! k)) then k
     else if dict_mem MODELS k then k else "blip-base") = Some l.
Proof.
  intros H. unfold get_model in H.
  bind_inv H as cache s1 E1. unfold gets in E1. simplify_eq.
  bind_inv H as k' s2 E2.
  bind_inv H as cache' s3 E3. unfold gets in E3. simplify_eq.
  unfold cache_getitem in H.
  destruct (model_cache s3 !! k') as [l'|] eqn:Hl; unfold ret, raise in H;
    simplify_eq.
  case_bool_decide.
  - unfold ret in E2. by simplify_eq.
  - do 4 bind_skip E2. unfold ret in E2. by simplify_eq.
Qed.

Lemma get_llm_returns_cached (v : json) (s s' : State) (l : LoadedLLM) :
  get_llm B v s = (Return l, s') ->
  exists hit,
    find_key (fun k => bool_decide (is_Some (llm_cache s !! k))) v = Return hit
    /\ match hit with
       | Some k => llm_cache s' !! k = Some l
       | None =>
           exists known,
             find_key (dict_mem LLM_MODELS) v = Return known
             /\ llm_cache s' !! default "smollm2-1.7b" known = Some l
       end.
Proof.
  intros H. unfold get_llm in H.
  bind_inv H as cache s1 E1. unfold gets in E1. simplify_eq.
  bind_inv H as hit s2 E2. unfold lift in E2. simplify_eq.
  bind_inv H as k' s3 E3.
  bind_inv H as cache' s4 E4. unfold gets in E4. simplify_eq.
  unfold cache_getitem in H.
  destruct (llm_cache s4 !! k') as [l'|] eqn:Hl; unfold ret, raise in H;
    simplify_eq.
  exists hit. split; [done |].
  destruct hit as [k|].
  - unfold ret in E3. by simplify_eq.
  - bind_inv E3 as known s5 E5. unfold lift in E5. simplify_eq.
    exists known. split; [done |].
    do 3 bind_skip E3.
    destruct (resolve_pad _ _) as [pad tok].
    do 2 bind_skip E3. unfold ret in E3. by simplify_eq.
Qed.

(** On a registered key loading is idempotent: once a call has returned,
    the next call returns the same object and leaves the state, hence the
    count of backend calls, as it is. *)
Lemma get_model_idempotent_registered (k : string) (s s' : State) (l : LoadedModel) :
  dict_mem MODELS k = true ->
  get_model B k s = (Return l, s') ->
  get_model B k s' = (Return l, s').
Proof.
  intros Hk H. apply get_model_hit.
  apply get_model_returns_cached in H. rewrite Hk in H.
  by case_bool_decide.
Qed.

Lemma get_llm_idempotent_registered (k : string) (s s' : State) (l : LoadedLLM) :
  dict_mem LLM_MODELS k = true ->
  get_llm B (JStr k) s = (Return l, s') ->
  get_llm B (JStr k) s' = (Return l, s').
Proof.
  intros Hk H. apply get_llm_hit.
  apply get_llm_returns_cached in H as (hit & Hhit & H).
  simpl in Hhit. simplify_eq. case_bool_decide; [done |].
  destruct H as (known & Hknown & H). simpl in Hknown. simplify_eq.
  by rewrite Hk in H.
Qed.

End Loads.

Lemma registered_lookup (s : State) :
  cache_keys_registered s ->
  (forall k, dict_mem MODELS k = false -> model_cache s !! k = None)
  /\ (forall k, dict_mem LLM_MODELS k = false -> llm_cache s !! k = None).
Proof.
  intros [Hm Hl]. split; intros k Hk; apply not_elem_of_dom; intros Hin.
  - apply Hm, elem_of_list_to_set, dict_mem_true in Hin. congruence.
  - apply Hl, elem_of_list_to_set, dict_mem_true in Hin. congruence.
Qed.

(** C10: in every state the application reaches (the state [create_app]
    leaves, then any sequence of requests) the keys of each cache are
    keys of its registry, so a cache never holds more entries than its
    registry; every request and every call of [get_model] or [get_llm]
    from such a state keeps it so.  A call with an unregistered
    identifier leaves nothing under that identifier: what it returns is
    stored under "blip-base" (image models) or "smollm2-1.7b" (text
    models). *)
Theorem cache_keys_within_registries (B : Backend) (debug : bool) (rs : list Request) :
  let s := serve_all B rs (create_app B debug) in
  cache_keys_registered s
  /\ (size (model_cache s) <= length MODELS)%nat
  /\ (size (llm_cache s) <= length LLM_MODELS)%nat
  /\ (forall r, cache_keys_registered (serve B r s).2)
  /\ (forall k, cache_keys_registered (get_model B k s).2)
  /\ (forall v, cache_keys_registered (get_llm B v s).2)
  /\ (forall k, dict_mem MODELS k = false ->
        model_cache (get_model B k s).2 !! k = None
        /\ forall l, (get_model B k s).1 = Return l ->
                     model_cache (get_model B k s).2 !! "blip-base" = Some l)
  /\ (forall v, find_key (dict_mem LLM_MODELS) v = Return None ->
        (forall k, v = JStr k -> llm_cache (get_llm B v s).2 !! k = None)
        /\ forall l, (get_llm B v s).1 = Return l ->
                     llm_cache (get_llm B v s).2 !! "smollm2-1.7b" = Some l).
Proof.
  intros s.
  assert (Hs : cache_keys_registered s)
    by apply registered_serve_all, registered_create_app.
  pose proof (registered_size s Hs) as [Hsm Hsl].
  split_and!; try done.
  - intros r. by apply registered_serve.
  - intros k. by apply preserves_get_model.
  - intros v. by apply preserves_get_llm.
  - intros k Hk. split.
    { by apply (registered_lookup _ (preserves_get_model B k s Hs)). }
    intros l Hl.
    destruct (get_model B k s) as [r s'] eqn:E. simpl in *. subst r.
    apply get_model_returns_cached in E.
    rewrite bool_decide_eq_false_2 in E.
    + by rewrite Hk in E.
    + rewrite (proj1 (registered_lookup s Hs) k Hk). by intros [? ?].
  - intros v Hv. split.
    { intros k ->. simpl in Hv. simplify_eq.
      apply (registered_lookup _ (preserves_get_llm B (JStr k) s Hs)).
      by destruct (dict_mem LLM_MODELS k). }
    intros l Hl.
    destruct (get_llm B v s) as [r s'] eqn:E. simpl in *. subst r.
    apply get_llm_returns_cached in E as (hit & Hhit & E).
    destruct hit as [k|].
    + destruct v as [| | | |x| |]; simpl in Hhit, Hv; simplify_eq.
      destruct (dict_mem LLM_MODELS x) eqn:Hx; simplify_eq.
      rewrite (proj2 (registered_lookup s Hs) x Hx) in Hhit.
      case_bool_decide as Hc; [by destruct Hc | done].
    + destruct E as (known & Hknown & E).
      rewrite Hv in Hknown. by simplify_eq.
Qed.

(** ** Unregistered identifiers *)

Section Unregistered.
Variable B : Backend.

(** [get_model] on a key that is neither cached nor registered builds
    the "blip-base" pipeline and stores it under "blip-base". *)
Lemma get_model_unregistered (k : string) (s : State) :
  dict_mem MODELS k = false -> model_cache s !! k = None ->
  get_model B k s =
  let s0 := log "INFO" "Loading BLIP Base..." s in
  let e := EvConstruct (KPipeline "image-to-text") blip_base_hub None in
  match construct B (clock s) (KPipeline "image-to-text") blip_base_hub None with
  | Return _ =>
      let l := LPipeline {| hid := clock s; hkind := KPipeline "image-to-text";
                            hub := blip_base_hub; hrev := None |} in
      (Return l,
       log "INFO" "BLIP Base loaded successfully!"
         (set_model_cache (<["blip-base" := l]> (model_cache s)) (record e s0)))
  | Raise err => (Raise err, record e s0)
  end.
Proof.
  intros Hk Hc. rewrite (get_model_miss B k s Hc). rewrite Hk.
  unfold bind, lift, logger_info, modify, load_model, build, store_model,
    gets, cache_getitem, ret, raise.
  change (dict_getitem MODELS "blip-base")
    with (Return (plain "BLIP Base" blip_base_hub "Fast and lightweight (500MB)")).
  cbn beta iota zeta delta [plain type name model clock log record].
  rewrite !decide_False by done.
  cbn beta iota zeta delta [plain type name model clock log record].
  unfold bind, modify.
  cbn beta iota zeta delta [clock log record String.append].
  destruct (construct B (clock s) (KPipeline "image-to-text") blip_base_hub None);
    [| done].
  cbn beta iota zeta delta [model_cache set_model_cache log record String.append].
  by rewrite lookup_insert_eq.
Qed.

(** [get_llm] likewise builds the "smollm2-1.7b" pipeline. *)
Lemma get_llm_unregistered (k : string) (s : State) :
  dict_mem LLM_MODELS k = false -> llm_cache s !! k = None ->
  get_llm B (JStr k) s =
  let s0 := log "INFO" "Loading LLM SmolLM2 1.7B Instruct..." s in
  let e := EvConstruct (KPipeline "text-generation") smollm2_hub None in
  match construct B (clock s) (KPipeline "text-generation") smollm2_hub None with
  | Return _ =>
      let h := {| hid := clock s; hkind := KPipeline "text-generation";
                  hub := smollm2_hub; hrev := None |} in
      let l := {| pipe := {| pipe_handle := h;
                             tokenizer := (resolve_pad (Some 128000)
                                             (tokenizer_of B smollm2_hub)).2 |};
                  llm_pad_token_id := (resolve_pad (Some 128000)
                                         (tokenizer_of B smollm2_hub)).1 |} in
      (Return l,
       log "INFO" "LLM SmolLM2 1.7B Instruct loaded successfully!"
         (set_llm_cache (<["smollm2-1.7b" := l]> (llm_cache s)) (record e s0)))
  | Raise err => (Raise err, record e s0)
  end.
Proof.
  intros Hk Hc. rewrite (get_llm_miss B k s Hc). rewrite Hk.
  unfold bind, lift, logger_info, modify, build, store_llm,
    gets, cache_getitem, ret, raise.
  change (dict_getitem LLM_MODELS "smollm2-1.7b")
    with (Return (llm "SmolLM2 1.7B Instruct" smollm2_hub
                      "Tiny instruct model (fast CPU, ~1.5GB RAM)" (Some 128000))).
  cbn beta iota zeta delta [llm name model pad_token_id clock log record String.append].
  destruct (construct B (clock s) (KPipeline "text-generation") smollm2_hub None);
    [| done].
  destruct (resolve_pad (Some 128000) (tokenizer_of B smollm2_hub)) as [pad tok].
  unfold modify.
  cbn beta iota zeta delta [llm_cache set_llm_cache log record String.append fst snd].
  by rewrite lookup_insert_eq.
Qed.

End Unregistered.

Lemma constructions_log (level msg : string) (s : State) :
  constructions (log level msg s) = constructions s.
Proof.
  unfold constructions, log. cbn [trace].
  rewrite List.filter_app, length_app. simpl. lia.
Qed.

Lemma constructions_record_construct k h rev (s : State) :
  constructions (record (EvConstruct k h rev) s) = S (constructions s).
Proof.
  unfold constructions, record. cbn [trace].
  rewrite List.filter_app, length_app. simpl. lia.
Qed.

Lemma constructions_set_model_cache c (s : State) :
  constructions (set_model_cache c s) = constructions s.
Proof. done. Qed.

Lemma constructions_set_llm_cache c (s : State) :
  constructions (set_llm_cache c s) = constructions s.
Proof. done. Qed.

(** C3, where the code departs from it: two calls of [get_model] in a
    row with the same unregistered identifier, both returning.  The
    second call builds a backend object again, returns an object that is
    not the one the first call returned, and puts it in the place of the
    first under "blip-base". *)
Theorem get_model_unregistered_reloads (B : Backend) (k : string)
    (s s1 s2 : State) (l1 l2 : LoadedModel) :
  dict_mem MODELS k = false ->
  model_cache s !! k = None ->
  get_model B k s = (Return l1, s1) ->
  get_model B k s1 = (Return l2, s2) ->
  l1 <> l2
  /\ constructions s2 = S (constructions s1)
  /\ model_cache s1 !! "blip-base" = Some l1
  /\ model_cache s2 !! "blip-base" = Some l2.
Proof.
  intros Hk Hc H1 H2.
  assert (Hne : "blip-base" <> k).
  { intros <-. by vm_compute in Hk. }
  rewrite (get_model_unregistered B k s Hk Hc) in H1.
  cbv zeta in H1.
  destruct (construct B (clock s) _ _ _); [| discriminate].
  injection H1 as <- <-.
  rewrite get_model_unregistered in H2; [| done |].
  2: { unfold log, set_model_cache. cbn [model_cache].
       by rewrite lookup_insert_ne. }
  cbv zeta in H2.
  destruct (construct B _ _ _ _); [| discriminate].
  injection H2 as <- <-.
  split_and!.
  - unfold log, set_model_cache, record. cbn [clock]. intros [=]. lia.
  - rewrite constructions_log, constructions_set_model_cache.
    by rewrite constructions_record_construct, constructions_log.
  - unfold log, set_model_cache. cbn [model_cache]. apply lookup_insert_eq.
  - unfold log, set_model_cache. cbn [model_cache]. apply lookup_insert_eq.
Qed.

(** The same for [get_llm]. *)
Lemma get_llm_unregistered_reloads (B : Backend) (k : string)
    (s s1 s2 : State) (l1 l2 : LoadedLLM) :
  dict_mem LLM_MODELS k = false ->
  llm_cache s !! k = None ->
  get_llm B (JStr k) s = (Return l1, s1) ->
  get_llm B (JStr k) s1 = (Return l2, s2) ->
  l1 <> l2
  /\ constructions s2 = S (constructions s1)
  /\ llm_cache s1 !! "smollm2-1.7b" = Some l1
  /\ llm_cache s2 !! "smollm2-1.7b" = Some l2.
Proof.
  intros Hk Hc H1 H2.
  assert (Hne : "smollm2-1.7b" <> k).
  { intros <-. by vm_compute in Hk. }
  rewrite (get_llm_unregistered B k s Hk Hc) in H1.
  cbv zeta in H1.
  destruct (construct B (clock s) _ _ _); [| discriminate].
  injection H1 as <- <-.
  rewrite get_llm_unregistered in H2; [| done |].
  2: { unfold log, set_llm_cache. cbn [llm_cache].
       by rewrite lookup_insert_ne. }
  cbv zeta in H2.
  destruct (construct B _ _ _ _); [| discriminate].
  injection H2 as <- <-.
  split_and!.
  - unfold log, set_llm_cache, record. cbn [clock]. intros [=]. lia.
  - rewrite constructions_log, constructions_set_llm_cache.
    by rewrite constructions_record_construct, constructions_log.
  - unfold log, set_llm_cache. cbn [llm_cache]. apply lookup_insert_eq.
  - unfold log, set_llm_cache. cbn [llm_cache]. apply lookup_insert_eq.
Qed.

Lemma get_model_unregistered_reloads_witness :
  let s := create_app Demo.backend false in
  let s1 := (get_model Demo.backend "nope" s).2 in
  let s2 := (get_model Demo.backend "nope" s1).2 in
  let h n := LPipeline {| hid := n; hkind := KPipeline "image-to-text";
                          hub := blip_base_hub; hrev := None |} in
  h 2%nat <> h 3%nat
  /\ constructions s2 = S (constructions s1)
  /\ model_cache s1 !! "blip-base" = Some (h 2%nat)
  /\ model_cache s2 !! "blip-base" = Some (h 3%nat).
Proof.
  intros s s1 s2 h.
  apply (get_model_unregistered_reloads Demo.backend "nope" s s1 s2);
    by vm_compute.
Defined.

(** ** The fallback of the two loaders *)

Section Fallback.
Variable B : Backend.

Lemma get_model_fallback (k : string) (s : State) :
  dict_mem MODELS k = false ->
  model_cache s !! k = None ->
  model_cache s !! "blip-base" = None ->
  get_model B k s = get_model B "blip-base" s.
Proof.
  intros Hk Hc Hb. rewrite !get_model_miss by done. rewrite Hk.
  by change (dict_mem MODELS "blip-base") with true.
Qed.

Lemma get_llm_fallback (k : string) (s : State) :
  dict_mem LLM_MODELS k = false ->
  llm_cache s !! k = None ->
  llm_cache s !! "smollm2-1.7b" = None ->
  get_llm B (JStr k) s = get_llm B (JStr "smollm2-1.7b") s.
Proof.
  intros Hk Hc Hb. rewrite !get_llm_miss by done. rewrite Hk.
  by change (dict_mem LLM_MODELS "smollm2-1.7b") with true.
Qed.

(** [caption_image_body] past its two early returns, step by step. *)
Lemma caption_image_body_steps (req : CaptionRequest) (file : FileStorage) (s : State) :
  files req !! "image" = Some file ->
  filename file <> "" ->
  caption_image_body B req s =
  let model_key := default "florence-2" (form req !! "model") in
  let question := default "" (form req !! "question") in
  let mode := form req !! "mode" in
  let s0 := record (EvImageOpen (stream file)) s in
  match image_open B (stream file) with
  | Raise e => (Raise e, s0)
  | Return image =>
      match get_model B model_key s0 with
      | (Raise e, s1) => (Raise e, s1)
      | (Return loaded, s1) =>
          match
            match loaded with
            | LFlorence processor mdl =>
                florence_caption B processor mdl image question mode
            | LMoondream mdl =>
                moondream_caption B mdl model_key image question mode
            | LPipeline captioner_h => pipeline_caption B captioner_h image
            end s1
          with
          | (Raise e, s2) => (Raise e, s2)
          | (Return text, s2) =>
              (Return (jsonify [("text", text)]),
               log "INFO" ("Image analyzed successfully with model: " +:+ model_key) s2)
          end
      end
  end.
Proof.
  intros Hf Hn. unfold caption_image_body. rewrite Hf.
  rewrite decide_False by done. cbv zeta.
  unfold bind at 1. unfold call.
  destruct (image_open B (stream file)) as [image|e]; [| done].
  unfold bind at 1.
  destruct (get_model B _ _) as [[loaded|e] s1]; [| done].
  unfold bind at 1.
  destruct loaded;
    match goal with
    | |- context [let (_, _) := ?m s1 in _] => by destruct (m s1) as [[text|e] s2]
    end.
Qed.

Lemma caption_image_fallback (k : string) (req : CaptionRequest) (s : State) :
  dict_mem MODELS k = false ->
  model_cache s !! k = None ->
  model_cache s !! "blip-base" = None ->
  (caption_image B (with_model k req) s).1 =
  (caption_image B (with_model "blip-base" req) s).1.
Proof.
  intros Hk Hc Hb.
  unfold caption_image, handle_errors.
  destruct (files req !! "image") as [file|] eqn:Hf.
  2: { unfold caption_image_body, with_model. cbn [files]. by rewrite Hf. }
  destruct (decide (filename file = "")) as [Hn|Hn].
  { unfold caption_image_body, with_model. cbn [files]. rewrite Hf.
    by rewrite !decide_True. }
  rewrite !(caption_image_body_steps _ file) by done.
  unfold with_model. cbn [form]. rewrite !lookup_insert_eq.
  rewrite !lookup_insert_ne by done. cbv zeta.
  change (default "florence-2" (Some k)) with k.
  change (default "florence-2" (Some "blip-base")) with "blip-base".
  destruct (image_open B (stream file)) as [image|e]; [| done].
  rewrite (get_model_fallback k) by done.
  destruct (get_model B "blip-base" _) as [[loaded|e] s1]; [| done].
  assert (Hm : forall mdl q m,
             moondream_caption B mdl k image q m
             = moondream_caption B mdl "blip-base" image q m).
  { intros. unfold moondream_caption.
    apply dict_mem_false in Hk. by rewrite Hk. }
  destruct loaded as [p m|m|c]; rewrite ?Hm.
  - by destruct (florence_caption B p m image _ _ s1) as [[text|e] s2].
  - by destruct (moondream_caption B m "blip-base" image _ _ s1) as [[text|e] s2].
  - by destruct (pipeline_caption B c image s1) as [[text|e] s2].
Qed.

(** Without a [model] field the handler asks for "florence-2". *)
Lemma caption_image_default_model (req : CaptionRequest) (s : State) :
  form req !! "model" = None ->
  caption_image B req s = caption_image B (with_model "florence-2" req) s.
Proof.
  intros Hnone.
  unfold caption_image, handle_errors, caption_image_body, with_model.
  cbn [files form].
  rewrite lookup_insert_eq, !lookup_insert_ne by done. by rewrite Hnone.
Qed.

End Fallback.

(** ** POST /generate, step by step *)

Section Generate.
Variable B : Backend.

(** What the handler reads from a body that is a dict (or stands for the
    empty dict): [int] and [float] run on what the dict holds, or on the
    default when the key is missing. *)
Lemma generate_args_dict (body : option json) (d : list (string * json)) (s : State) :
  get_json_or_empty body = JObj d ->
  generate_args B body s =
  (match py_int B (default (JInt 256) (dict_get d "max_new_tokens")) with
   | Raise e => Raise e
   | Return n =>
       match py_float B (default (JFloat default_temperature)
                                 (dict_get d "temperature")) with
       | Raise e => Raise e
       | Return t =>
           Return {| g_prompt := default (JStr "") (dict_get d "prompt");
                     g_model_key := default (JStr "smollm2-1.7b") (dict_get d "model");
                     g_max_new_tokens := n;
                     g_temperature := t |}
       end
   end, s).
Proof.
  intros H. unfold generate_args. rewrite H.
  unfold bind, lift, ret, data_get.
  by repeat case_match.
Qed.

Lemma generate_args_state (body : option json) (s : State) :
  (generate_args B body s).2 = s.
Proof.
  unfold generate_args, bind, lift, ret.
  by repeat case_match.
Qed.

Lemma generate_text_body_steps (body : option json) (s : State) :
  generate_text_body B body s =
  match generate_args B body s with
  | (Raise e, s0) => (Raise e, s0)
  | (Return args, s0) =>
      match get_llm B (g_model_key args) s0 with
      | (Raise e, s1) => (Raise e, s1)
      | (Return loaded, s1) =>
          let s2 := record (EvSample (pipe loaded) (g_prompt args)
                                     (g_max_new_tokens args) (g_temperature args)
                                     (llm_pad_token_id loaded)) s1 in
          match sample B (clock s1) (pipe loaded) (g_prompt args)
                       (g_max_new_tokens args) (g_temperature args)
                       (llm_pad_token_id loaded) with
          | Raise e => (Raise e, s2)
          | Return outputs =>
              match list_getitem outputs 0 with
              | Raise e => (Raise e, s2)
              | Return first =>
                  match dict_getitem first "generated_text" with
                  | Raise e => (Raise e, s2)
                  | Return generated =>
                      match continuation generated (g_prompt args) with
                      | Raise e => (Raise e, s2)
                      | Return text =>
                          (Return (jsonify [("text", text);
                                            ("model", g_model_key args)]),
                           log "INFO"
                             ("Text generated successfully with model: "
                              +:+ fstr B (g_model_key args)) s2)
                      end
                  end
              end
          end
      end
  end.
Proof.
  unfold generate_text_body. unfold bind at 1.
  destruct (generate_args B body s) as [[args|e] s0]; [| done].
  unfold bind at 1.
  destruct (get_llm B (g_model_key args) s0) as [[loaded|e] s1]; [| done].
  unfold bind, run_pipe, lift, logger_info, modify, ret.
  by repeat case_match.
Qed.

End Generate.

(** ** The defaults of POST /generate *)

(** C2, as stated, fails: a body whose [max_new_tokens] is null is valid
    JSON with an invalid field; the field is not replaced by 256, [int]
    raises, the pipeline is never called and the answer is HTTP 500. *)
Lemma invalid_field_is_not_defaulted :
  let s := create_app Demo.backend false in
  let r := generate_text Demo.backend (Some (JObj [("max_new_tokens", JNull)])) s in
  r.1 = {| status := 500;
           body := JObj [("error",
             JStr "Error generating text: int() argument must be a string, a bytes-like object or a real number, not 'NoneType'")] |}
  /\ samples r.2 = []
  /\ llm_cache r.2 = ∅.
Proof. cbv zeta. split_and!; by vm_compute. Qed.

Lemma samples_record_sample p prompt n t pad (s : State) :
  samples (record (EvSample p prompt n t pad) s) = (samples s ++ [(prompt, n, t)])%list.
Proof. unfold samples, record. cbn [trace]. by rewrite omap_app. Qed.

Lemma samples_log level msg (s : State) : samples (log level msg s) = samples s.
Proof.
  unfold samples, log. cbn [trace]. rewrite omap_app. simpl.
  by rewrite app_nil_r.
Qed.

(** C2, amended: a field that is missing from the JSON body is replaced
    by its default (prompt "", model "smollm2-1.7b", max_new_tokens 256,
    temperature 0.7), and so is every field when the body is absent, not
    JSON, or falsy.  A field that is present is used as it was sent:
    prompt and model as they are, max_new_tokens through [int] and
    temperature through [float], where [int] keeps an integer, maps
    [true]/[false] to 1/0, truncates a float and parses a string, and
    [float] keeps a float, maps [true]/[false] to 1.0/0.0, converts an
    integer and parses a string.  With these values the handler loads
    the model and, once it is loaded, calls the pipeline with them.  A
    present value that [int] or [float] rejects (null, an array, an
    object, an unparsable string) is not replaced: the answer is
    HTTP 500. *)
Theorem generate_text_defaults (B : Backend) (body : option json) (s : State) :
  (forall d (p m : option json) (n : option Z) (t : option Q),
      get_json_or_empty body = JObj d ->
      dict_get d "prompt" = p ->
      dict_get d "model" = m ->
      dict_get d "max_new_tokens" = JInt <$> n ->
      dict_get d "temperature" = JFloat <$> t ->
      generate_args B body s =
      (Return {| g_prompt := default (JStr "") p;
                 g_model_key := default (JStr "smollm2-1.7b") m;
                 g_max_new_tokens := default 256 n;
                 g_temperature := default default_temperature t |}, s))
  /\ (body = None \/ (exists v, body = Some v /\ truthy v = false) ->
      generate_args B body s = (Return default_args, s))
  /\ (forall args loaded s1,
        generate_args B body s = (Return args, s) ->
        get_llm B (g_model_key args) s = (Return loaded, s1) ->
        samples (generate_text B body s).2 =
        (samples s1 ++ [(g_prompt args, g_max_new_tokens args, g_temperature args)])%list)
  /\ (forall d v e,
        get_json_or_empty body = JObj d ->
        dict_get d "max_new_tokens" = Some v ->
        py_int B v = Raise e ->
        (generate_text B body s).1 =
        {| status := 500;
           body := JObj [("error", JStr ("Error generating text: " +:+ e))] |})
  /\ (forall d v n e,
        get_json_or_empty body = JObj d ->
        py_int B (default (JInt 256) (dict_get d "max_new_tokens")) = Return n ->
        dict_get d "temperature" = Some v ->
        py_float B v = Raise e ->
        (generate_text B body s).1 =
        {| status := 500;
           body := JObj [("error", JStr ("Error generating text: " +:+ e))] |})
  /\ (forall d n t,
        get_json_or_empty body = JObj d ->
        py_int B (default (JInt 256) (dict_get d "max_new_tokens")) = Return n ->
        py_float B (default (JFloat default_temperature) (dict_get d "temperature"))
          = Return t ->
        generate_args B body s =
        (Return {| g_prompt := default (JStr "") (dict_get d "prompt");
                   g_model_key := default (JStr "smollm2-1.7b") (dict_get d "model");
                   g_max_new_tokens := n;
                   g_temperature := t |}, s))
  /\ (forall v,
        py_int B v =
        match v with
        | JInt z => Return z
        | JBool b => Return (if b then 1 else 0)
        | JFloat q => int_of_float B q
        | JStr x => int_of_str B x
        | JNull | JArr _ | JObj _ =>
            Raise ("int() argument must be a string, a bytes-like object or a real number, not '"
                   +:+ type_name v +:+ "'")
        end)
  /\ (forall v,
        py_float B v =
        match v with
        | JFloat q => Return q
        | JBool b => Return (if b then 1%Q else 0%Q)
        | JInt z => float_of_int B z
        | JStr x => float_of_str B x
        | JNull | JArr _ | JObj _ =>
            Raise ("float() argument must be a string or a real number, not '"
                   +:+ type_name v +:+ "'")
        end).
Proof.
  split_and!.
  - intros d p m n t Hd <- <- Hn Ht.
    rewrite (generate_args_dict B body d s Hd), Hn, Ht.
    by destruct n, t.
  - intros H.
    assert (Hd : get_json_or_empty body = JObj []).
    { destruct H as [-> | (v & -> & Hv)]; [done |].
      unfold get_json_or_empty. by rewrite Hv. }
    by rewrite (generate_args_dict B body [] s Hd).
  - intros args loaded s1 Ha Hl.
    unfold generate_text, handle_errors.
    rewrite generate_text_body_steps, Ha, Hl. cbv zeta.
    repeat case_match; simplify_eq; cbn [snd];
      by rewrite ?samples_log, samples_record_sample.
  - intros d v e Hd Hv He.
    unfold generate_text, handle_errors.
    rewrite generate_text_body_steps, (generate_args_dict B body d s Hd).
    rewrite Hv. change (default (JInt 256) (Some v)) with v. by rewrite He.
  - intros d v n e Hd Hn Hv He.
    unfold generate_text, handle_errors.
    rewrite generate_text_body_steps, (generate_args_dict B body d s Hd).
    rewrite Hn, Hv.
    change (default (JFloat default_temperature) (Some v)) with v.
    by rewrite He.
  - intros d n t Hd Hn Ht.
    by rewrite (generate_args_dict B body d s Hd), Hn, Ht.
  - by intros [].
  - by intros [].
Qed.

Example generate_text_without_body :
  let r := generate_text Demo.backend None (create_app Demo.backend false) in
  r.1 = {| status := 200;
           body := JObj [("text", JStr " world"); ("model", JStr "smollm2-1.7b")] |}
  /\ samples r.2 = [(JStr "", 256, default_temperature)].
Proof. cbv zeta. split; by vm_compute. Qed.

(** ** The prompt at the front of the generated text *)



Example generate_text_hello_world :
  (generate_text Demo.backend (Some (JObj [("prompt", JStr "Hello")]))
                 (create_app Demo.backend false)).1 =
  {| status := 200;
     body := JObj [("text", JStr " world"); ("model", JStr "smollm2-1.7b")] |}.
Proof. by vm_compute. Qed.

Example generate_text_prompt_absent :
  (generate_text (Demo.canned "Goodbye") (Some (JObj [("prompt", JStr "Hello")]))
                 (create_app (Demo.canned "Goodbye") false)).1 =
  {| status := 200;
     body := JObj [("text", JStr "Goodbye"); ("model", JStr "smollm2-1.7b")] |}.
Proof. by vm_compute. Qed.

(** ** The question block of the tag-prompted backend *)

(** C4, as stated, fails: the backend decodes to the tag followed by
    " A cat sits on a mat. "; the answer is not the question block
    followed by that text without the tag, because the handler also
    strips the white space around what is left. *)
Lemma florence_answer_is_also_stripped_of_spaces :
  let s := create_app Demo.backend false in
  let tag := florence_prompt_for_mode None in
  let decoded := "<MORE_DETAILED_CAPTION> A cat sits on a mat. " in
  let text := "Question: what?" +:+ nl +:+ "Answer: A cat sits on a mat." in
  batch_decode Demo.backend "microsoft/Florence-2-base" (Demo.codes tag)
    = Return [decoded]
  /\ (caption_image Demo.backend (Demo.upload [("question", "what?")]) s).1
     = {| status := 200; body := JObj [("text", JStr text)] |}
  /\ text <> "Question: what?" +:+ nl +:+ "Answer: " +:+ tag_removed tag decoded.
Proof. cbv zeta. split_and!; by vm_compute. Qed.

(** C4, amended: for a request served by the tag-prompted backend with a
    non-empty question, whatever the mode, when the backend calls return
    and the decoded caption is [decoded], the text of the response is
    "Question: {question}\nAnswer: " followed by [decoded] itself when
    the prompt tag is not a prefix of it, and otherwise by what follows
    the tag in [decoded] with leading and trailing white space removed. *)
Theorem florence_caption_with_question (B : Backend) (req : CaptionRequest)
    (file : FileStorage) (s s1 : State) (question : string) (image : Image)
    (processor mdl : Handle) (inputs : Tensor * Tensor) (ids : Tensor)
    (decoded : string) (others : list string) :
  files req !! "image" = Some file ->
  filename file <> "" ->
  form req !! "question" = Some question ->
  question <> "" ->
  image_open B (stream file) = Return image ->
  get_model B (default "florence-2" (form req !! "model"))
            (record (EvImageOpen (stream file)) s)
    = (Return (LFlorence processor mdl), s1) ->
  process B (hub processor) (florence_prompt_for_mode (form req !! "mode")) image
    = Return inputs ->
  generate B (S (clock s1)) (hub mdl) inputs.1 inputs.2 256 3 = Return ids ->
  batch_decode B (hub processor) ids = Return (decoded :: others) ->
  (caption_image B req s).1 =
  {| status := 200;
     body := JObj [("text",
       JStr ("Question: " +:+ question +:+ nl +:+ "Answer: " +:+
             let tag := florence_prompt_for_mode (form req !! "mode") in
             if startswith decoded tag
             then strip (slice_from (String.length tag) decoded)
             else decoded))] |}.
Proof.
  intros Hf Hn Hq Hq' Hi Hm Hp Hg Hd.
  unfold caption_image, handle_errors.
  rewrite (caption_image_body_steps B req file s Hf Hn). cbv zeta.
  rewrite Hi, Hm, Hq.
  unfold florence_caption, bind, call, call_at, lift, ret.
  rewrite Hp. cbn [clock record]. rewrite Hg, Hd.
  cbn [list_getitem lookup list_lookup fst].
  unfold question_prefix, remove_task_prefix.
  change (default "" (Some question)) with question.
  rewrite decide_False by done.
  cbn [fst]. unfold jsonify. do 4 f_equal.
  by rewrite !append_assoc.
Qed.

Lemma florence_caption_with_question_witness :
  (caption_image Demo.backend (Demo.upload [("question", "what?"); ("mode", "ocr")])
                 (create_app Demo.backend false)).1 =
  {| status := 200;
     body := JObj [("text",
       JStr ("Question: " +:+ "what?" +:+ nl +:+ "Answer: " +:+
             let tag := florence_prompt_for_mode (Some "ocr") in
             if startswith "<OCR> A cat sits on a mat. " tag
             then strip (slice_from (String.length tag) "<OCR> A cat sits on a mat. ")
             else "<OCR> A cat sits on a mat. "))] |}.
Proof.
  eapply (florence_caption_with_question Demo.backend
            (Demo.upload [("question", "what?"); ("mode", "ocr")])
            {| filename := "cat.png"; stream := "PNG" |}
            (create_app Demo.backend false) _ "what?" "PNG").
  - by vm_compute.
  - by vm_compute.
  - by vm_compute.
  - by vm_compute.
  - by vm_compute.
  - vm_compute. reflexivity.
  - vm_compute. reflexivity.
  - vm_compute. reflexivity.
  - vm_compute. reflexivity.
Defined.

(** ** The conversational backend *)

(** C7, as stated, fails: in mode "roast" the question " hi " is not the
    prompt of the query, "hi" is; and the question made of three spaces,
    which is not empty, gives the fallback prompt. *)
Lemma roast_prompt_is_the_stripped_question :
  let s := create_app Demo.backend false in
  let roast q :=
    caption_image Demo.backend
      (Demo.upload [("model", "moondream-2"); ("mode", "roast"); ("question", q)]) s in
  queries (roast " hi ").2 = [("PNG", "hi")]
  /\ (roast " hi ").1 = {| status := 200; body := JObj [("text", JStr "re: hi")] |}
  /\ queries (roast "   ").2 =
     [("PNG", "Roast this image in one short, witty sentence.")].
Proof. cbv zeta. split_and!; by vm_compute. Qed.

(** C7, amended: for the conversational backend the effective mode is
    the supplied mode if it is given and not empty, else the default mode
    of the descriptor ("caption" when it has none).  When the effective
    mode is "roast" the prompt is the question with leading and trailing
    white space removed if that is not empty, else "Roast this image in
    one short, witty sentence."; one query call is made with the image
    and that prompt; the text is the [answer] entry of a dict result
    (null when the dict has none) and the [str()] of any other result.
    For any other effective mode one caption call is made with the image
    alone and the text is the [caption] entry of a dict result, or the
    [str()] of any other result.  An exception of the call is raised to
    the handler. *)
Theorem moondream_caption_modes (B : Backend) (mdl : Handle) (model_key : string)
    (image : Image) (question : string) (mode : option string) (s : State) :
  let descriptor_default :=
    default "caption" (dict_get MODELS model_key ≫= default_mode) in
  let effective :=
    match mode with
    | Some m => if decide (m = "") then descriptor_default else m
    | None => descriptor_default
    end in
  let prompt :=
    if decide (strip question = "") then roast_fallback else strip question in
  (effective = "roast" ->
   moondream_caption B mdl model_key image question mode s =
   (match query B (clock s) (hub mdl) image prompt with
    | Return (MDict d) => Return (default JNull (dict_get d "answer"))
    | Return (MOther str) => Return (JStr str)
    | Raise e => Raise e
    end,
    record (EvQuery mdl image prompt) s))
  /\ (effective <> "roast" ->
      moondream_caption B mdl model_key image question mode s =
      (match caption B (clock s) (hub mdl) image with
       | Return (MDict d) => Return (default JNull (dict_get d "caption"))
       | Return (MOther str) => Return (JStr str)
       | Raise e => Raise e
       end,
       record (EvCaption mdl image) s))
  /\ dict_get MODELS "moondream-2" ≫= default_mode = Some "caption".
Proof.
  intros descriptor_default effective prompt.
  assert (Hp : or_str (if decide (question = "") then None
                       else Some (strip question)) roast_fallback = prompt).
  { unfold or_str, prompt. destruct (decide (question = "")) as [->|]; [done |].
    by destruct (decide (strip question = "")). }
  split_and!; [| | done].
  - intros He. unfold moondream_caption. fold descriptor_default.
    change (or_str mode descriptor_default) with effective.
    rewrite decide_True by done. rewrite Hp.
    unfold bind, call_at, ret.
    by destruct (query B (clock s) (hub mdl) image prompt) as [[d|str]|e].
  - intros He. unfold moondream_caption. fold descriptor_default.
    change (or_str mode descriptor_default) with effective.
    rewrite decide_False by done.
    unfold bind, call_at, ret.
    by destruct (caption B (clock s) (hub mdl) image) as [[d|str]|e].
Qed.

(** ** The statements above, on concrete requests *)

Lemma florence_prompt_for_mode_resolution_witness :
  florence_prompt_for_mode (Some "ocr") = "<OCR>"
  /\ florence_prompt_for_mode (Some "poem") = florence_prompt_for_mode (Some "more_detailed")
  /\ florence_prompt_for_mode None = "<MORE_DETAILED_CAPTION>"
  /\ prompt_for_mode (plain "" "" "") (Some "ocr") = "<MORE_DETAILED_CAPTION>".
Proof.
  destruct florence_prompt_for_mode_resolution
    as (Hany & _ & _ & _ & Hknown & Hunknown).
  split_and!.
  - apply Hknown. reflexivity.
  - apply Hunknown. right. exists "poem". split; reflexivity.
  - apply Hunknown. left. reflexivity.
  - apply (Hany (plain "" "" "") (Some "ocr")).
    + right. exists "ocr". split; reflexivity.
    + reflexivity.
Defined.

Lemma list_models_lists_registries_witness :
  exists ms ls,
    (list_models empty_state).1 = jsonify [("models", JArr ms); ("llms", JArr ls)]
    /\ json_field "key" <$> ms =
       (fun k => Some (JStr k)) <$>
         ["blip-base"; "blip-large"; "vit-gpt2"; "florence-2"; "moondream-2"]
    /\ ms !! 3%nat = Some
         (JObj [ ("key", JStr "florence-2");
                 ("name", JStr "Florence-2 Base");
                 ("description", JStr "High-quality captions (custom loader, ~1.5GB)");
                 ("modes", JArr [JStr "caption"; JStr "more_detailed"; JStr "ocr";
                                 JStr "dense"; JStr "od"]);
                 ("default_mode", JStr "more_detailed") ])
    /\ ms !! 0%nat = Some
         (JObj [ ("key", JStr "blip-base");
                 ("name", JStr "BLIP Base");
                 ("description", JStr "Fast and lightweight (500MB)");
                 ("modes", JNull);
                 ("default_mode", JNull) ])
    /\ ls !! 1%nat = Some
         (JObj [ ("key", JStr "phi3-mini");
                 ("name", JStr "Phi-3 Mini 4k");
                 ("description", JStr "Reasoning-focused small model (~3GB RAM)") ]).
Proof.
  destruct list_models_lists_registries as (Hany & _).
  destruct (Hany MODELS LLM_MODELS) as (ms & ls & Hr & Hk & _ & Hm & Hl).
  exists ms, ls. split_and!.
  - exact Hr.
  - exact Hk.
  - apply (Hm 3%nat "florence-2" florence_info). reflexivity.
  - apply (Hm 0%nat "blip-base"
              (plain "BLIP Base" blip_base_hub "Fast and lightweight (500MB)")).
    reflexivity.
  - apply (Hl 1%nat "phi3-mini"
              (llm "Phi-3 Mini 4k" "microsoft/Phi-3-mini-4k-instruct"
                   "Reasoning-focused small model (~3GB RAM)" None)).
    reflexivity.
Defined.

Lemma caption_image_requires_upload_witness :
  let s := create_app Demo.backend false in
  let no_file := {| files := ∅; form := {[ "model" := "blip-base" ]} |} in
  let no_name :=
    {| files := {[ "image" := {| filename := ""; stream := "PNG" |} ]};
       form := ∅ |} in
  caption_image Demo.backend no_file s =
    ({| status := 400; body := JObj [("error", JStr "No image provided")] |},
     {| model_cache := model_cache s; llm_cache := llm_cache s; clock := clock s;
        trace := trace s ++ [EvLog "WARNING" "Request received without image file"] |})
  /\ caption_image Demo.backend no_name s =
    ({| status := 400; body := JObj [("error", JStr "No image selected")] |},
     {| model_cache := model_cache s; llm_cache := llm_cache s; clock := clock s;
        trace := trace s ++ [EvLog "WARNING" "Empty filename in request"] |}).
Proof.
  intros s no_file no_name. split.
  - apply (proj1 (caption_image_requires_upload Demo.backend no_file s)).
    reflexivity.
  - apply (proj2 (caption_image_requires_upload Demo.backend no_name s)
                 {| filename := ""; stream := "PNG" |}); reflexivity.
Defined.

Lemma cache_keys_within_registries_witness :
  let s := serve_all Demo.backend
             [PostCaption (Demo.upload [("model", "nope")]);
              PostGenerate (Some (JObj [("model", JInt 5)]))]
             (create_app Demo.backend false) in
  cache_keys_registered s
  /\ (size (model_cache s) <= length MODELS)%nat
  /\ model_cache (get_model Demo.backend "nope" s).2 !! "nope" = None
  /\ model_cache (get_model Demo.backend "nope" s).2 !! "blip-base" =
     Some (LPipeline {| hid := 7; hkind := KPipeline "image-to-text";
                        hub := blip_base_hub; hrev := None |})
  /\ llm_cache (get_llm Demo.backend (JStr "nope") s).2 !! "nope" = None.
Proof.
  intros s.
  destruct (cache_keys_within_registries Demo.backend false
              [PostCaption (Demo.upload [("model", "nope")]);
               PostGenerate (Some (JObj [("model", JInt 5)]))])
    as (Hs & Hsize & _ & _ & _ & _ & Hm & Hl).
  split_and!.
  - exact Hs.
  - exact Hsize.
  - apply (proj1 (Hm "nope" eq_refl)).
  - apply (proj2 (Hm "nope" eq_refl)). vm_compute. reflexivity.
  - apply (proj1 (Hl (JStr "nope") eq_refl) "nope" eq_refl).
Defined.

Lemma generate_text_defaults_witness :
  let s := create_app Demo.backend false in
  generate_args Demo.backend None s = (Return default_args, s)
  /\ generate_args Demo.backend (Some (JArr [])) s = (Return default_args, s)
  /\ generate_args Demo.backend
       (Some (JObj [("prompt", JStr "Hi"); ("max_new_tokens", JInt 16)])) s =
     (Return {| g_prompt := JStr "Hi"; g_model_key := JStr "smollm2-1.7b";
                g_max_new_tokens := 16; g_temperature := default_temperature |}, s)
  /\ (generate_text Demo.backend (Some (JObj [("temperature", JArr [])])) s).1 =
     {| status := 500;
        body := JObj [("error",
          JStr ("Error generating text: " +:+
                "float() argument must be a string or a real number, not 'list'"))] |}
  /\ generate_args Demo.backend
       (Some (JObj [("max_new_tokens", JStr "16"); ("temperature", JInt 1)])) s =
     (Return {| g_prompt := JStr ""; g_model_key := JStr "smollm2-1.7b";
                g_max_new_tokens := 16; g_temperature := 1%Q |}, s).
Proof.
  intros s. split_and!.
  - apply (generate_text_defaults Demo.backend None s). left. reflexivity.
  - apply (generate_text_defaults Demo.backend (Some (JArr [])) s).
    right. exists (JArr []). split; reflexivity.
  - apply (proj1 (generate_text_defaults Demo.backend
                    (Some (JObj [("prompt", JStr "Hi"); ("max_new_tokens", JInt 16)])) s)
                 [("prompt", JStr "Hi"); ("max_new_tokens", JInt 16)]
                 (Some (JStr "Hi")) None (Some 16) None); reflexivity.
  - destruct (generate_text_defaults Demo.backend
                (Some (JObj [("temperature", JArr [])])) s)
      as (_ & _ & _ & _ & Ht & _).
    apply (Ht [("temperature", JArr [])] (JArr []) 256); reflexivity.
  - destruct (generate_text_defaults Demo.backend
                (Some (JObj [("max_new_tokens", JStr "16"); ("temperature", JInt 1)])) s)
      as (_ & _ & _ & _ & _ & Hargs & _).
    apply (Hargs [("max_new_tokens", JStr "16"); ("temperature", JInt 1)] 16 1%Q);
      by vm_compute.
Defined.

Lemma moondream_caption_modes_witness :
  let s := create_app Demo.backend false in
  let h := {| hid := 7; hkind := KCausalLM; hub := "vikhyatk/moondream2";
              hrev := Some "2025-06-21" |} in
  moondream_caption Demo.backend h "moondream-2" "PNG" " hi " (Some "roast") s =
    (Return (JStr "re: hi"), record (EvQuery h "PNG" "hi") s)
  /\ moondream_caption Demo.backend h "moondream-2" "PNG" " hi " None s =
    (Return (JStr "a cat"), record (EvCaption h "PNG") s).
Proof.
  intros s h. split.
  - apply (proj1 (moondream_caption_modes Demo.backend h "moondream-2" "PNG"
                    " hi " (Some "roast") s)).
    reflexivity.
  - apply (proj1 (proj2 (moondream_caption_modes Demo.backend h "moondream-2" "PNG"
                           " hi " None s))).
    discriminate.
Defined.

(** * Further properties *)

(** ** Steps that leave a relation alone *)

Section Respects.
Context (R : relation State) `{!Silent R}.

Lemma respects_ret {A} (a : A) : respects R (ret a).
Proof. intros s. reflexivity. Qed.

Lemma respects_raise {A} (e : string) : respects R (@raise A e).
Proof. intros s. reflexivity. Qed.

Lemma respects_lift {A} (r : result A) : respects R (lift r).
Proof. intros s. reflexivity. Qed.

Lemma respects_gets {A} (f : State -> A) : respects R (gets f).
Proof. intros s. reflexivity. Qed.

Lemma respects_call {A} (e : Event) (r : result A) :
  is_construct e = false -> respects R (call e r).
Proof. intros He s. by apply silent_record. Qed.

Lemma respects_call_at {A} (e : Event) (r : nat -> result A) :
  is_construct e = false -> respects R (call_at e r).
Proof. intros He s. by apply silent_record. Qed.

Lemma respects_logger_info (msg : string) : respects R (logger_info msg).
Proof. intros s. apply silent_log. Qed.

Lemma respects_logger_warning (msg : string) : respects R (logger_warning msg).
Proof. intros s. apply silent_log. Qed.

Lemma respects_bind {A C} (m : M A) (k : A -> M C) :
  respects R m -> (forall a, respects R (k a)) -> respects R (bind m k).
Proof.
  intros Hm Hk s. unfold bind. specialize (Hm s).
  destruct (m s) as [[a|e] s']; simpl in *; [| done].
  etrans; [exact Hm | apply Hk].
Qed.

Lemma respects_build `{!Buildable R} (B : Backend) (k : LoadKind) (h : string)
    (rev : option string) :
  respects R (build B k h rev).
Proof.
  intros s. unfold build.
  destruct (construct B (clock s) k h rev); apply buildable_record.
Qed.

Lemma respects_run_pipe (B : Backend) p prompt n t pad :
  respects R (run_pipe B p prompt n t pad).
Proof. intros s. by apply silent_record. Qed.

Lemma respects_cache_getitem {V} (cache : gmap string V) (k : string) :
  respects R (cache_getitem cache k).
Proof. intros s. unfold cache_getitem. destruct (cache !! k); reflexivity. Qed.

Lemma respects_handle_errors (B : Backend) (what : string) (m : M Response) (s : State) :
  respects R m -> R s (handle_errors B what m s).2.
Proof.
  intros Hm. unfold handle_errors. specialize (Hm s).
  destruct (m s) as [[r|e] s']; simpl in *; [done |].
  etrans; [exact Hm | apply silent_log].
Qed.

End Respects.

Ltac respect_prim :=
  lazymatch goal with
  | |- respects ?R _ =>
      first
        [ apply (respects_ret R) | apply (respects_raise R)
        | apply (respects_lift R) | apply (respects_gets R)
        | apply (respects_call R); reflexivity
        | apply (respects_call_at R); reflexivity
        | apply (respects_logger_info R) | apply (respects_logger_warning R)
        | apply (respects_build R) | apply (respects_run_pipe R)
        | apply (respects_cache_getitem R) ]
  end.

Ltac respect_bind :=
  lazymatch goal with
  | |- respects ?R _ => apply (respects_bind R); [| intros ?]
  end.

Ltac respect_steps := repeat first [ respect_prim | respect_bind ].

Section Adapters.
Context (R : relation State) `{!Silent R} (B : Backend).

Lemma respects_florence_caption processor mdl image question mode :
  respects R (florence_caption B processor mdl image question mode).
Proof. unfold florence_caption. respect_steps. Qed.

Lemma respects_moondream_caption mdl model_key image question mode :
  respects R (moondream_caption B mdl model_key image question mode).
Proof. unfold moondream_caption. case_decide; respect_steps. Qed.

Lemma respects_pipeline_caption h image :
  respects R (pipeline_caption B h image).
Proof. unfold pipeline_caption. respect_steps. Qed.

Lemma respects_generate_args body : respects R (generate_args B body).
Proof. unfold generate_args. respect_steps. Qed.

End Adapters.

#[local] Instance same_caches_silent : Silent same_caches.
Proof.
  split.
  - split.
    + by intros s.
    + intros s1 s2 s3 [H1 H2] [H3 H4]. split; congruence.
  - by intros e s _.
  - by intros level msg s.
Qed.

#[local] Instance same_caches_buildable : Buildable same_caches.
Proof. by intros k h rev s. Qed.

(** ** What a load does to the caches *)

Section LoadEffect.
Variable B : Backend.

(** [get_model] leaves the text cache alone; when it raises, the image
    cache is as before; when it returns on a cached key, nothing at all
    changed; when it returns on a key that was not cached, what it
    returns was inserted under [model_key_for]. *)
Lemma get_model_effect (q : string) (s : State) :
  llm_cache (get_model B q s).2 = llm_cache s
  /\ match (get_model B q s).1 with
     | Raise _ => model_cache (get_model B q s).2 = model_cache s
     | Return l =>
         match model_cache s !! q with
         | Some l0 => l = l0 /\ (get_model B q s).2 = s
         | None =>
             model_cache (get_model B q s).2
             = <[model_key_for q := l]> (model_cache s)
         end
     end.
Proof.
  destruct (model_cache s !! q) as [l0|] eqn:Hq.
  { by rewrite (get_model_hit B q l0 s Hq). }
  rewrite (get_model_miss B q s Hq). fold (model_key_for q).
  generalize (model_key_for q). intros k.
  unfold load_model, store_model, logger_info.
  unfold bind, lift, modify, build, gets, cache_getitem, ret, raise.
  destruct (dict_getitem MODELS k) as [info|e]; [| done].
  repeat case_decide;
    repeat (match goal with
            | |- context [construct B ?n ?a ?b ?c] =>
                destruct (construct B n a b c)
            end;
            cbn [fst snd model_cache llm_cache log record set_model_cache]);
    rewrite ?lookup_insert_eq; done.
Qed.

Lemma get_llm_load_effect (k : string) (s : State) :
  let r :=
    (info <- lift (dict_getitem LLM_MODELS k) ;;
     logger_info ("Loading LLM " +:+ name info +:+ "...") ;;;
     h <- build B (KPipeline "text-generation") (model info) None ;;
     let '(pad, tok) := resolve_pad (pad_token_id info) (tokenizer_of B (model info)) in
     store_llm k {| pipe := {| pipe_handle := h; tokenizer := tok |};
                    llm_pad_token_id := pad |} ;;;
     logger_info ("LLM " +:+ name info +:+ " loaded successfully!") ;;;
     cache <- gets llm_cache ;;
     cache_getitem cache k) s in
  model_cache r.2 = model_cache s
  /\ match r.1 with
     | Raise _ => llm_cache r.2 = llm_cache s
     | Return l => llm_cache r.2 = <[k := l]> (llm_cache s)
     end.
Proof.
  unfold store_llm, logger_info.
  unfold bind, lift, modify, build, gets, cache_getitem, ret, raise.
  destruct (dict_getitem LLM_MODELS k) as [info|e]; [| done].
  cbn [fst snd clock log].
  destruct (construct B (clock s) _ _ _); [| done].
  destruct (resolve_pad _ _) as [pad tok].
  cbn [fst snd model_cache llm_cache log record set_llm_cache].
  by rewrite lookup_insert_eq.
Qed.

(** A key that is hashable and not a str is never cached nor
    registered: [get_llm] loads "smollm2-1.7b". *)
Lemma get_llm_not_str (v : json) (s : State) :
  match v with JNull | JBool _ | JInt _ | JFloat _ => True | _ => False end ->
  get_llm B v s =
  (info <- lift (dict_getitem LLM_MODELS "smollm2-1.7b") ;;
   logger_info ("Loading LLM " +:+ name info +:+ "...") ;;;
   h <- build B (KPipeline "text-generation") (model info) None ;;
   let '(pad, tok) := resolve_pad (pad_token_id info) (tokenizer_of B (model info)) in
   store_llm "smollm2-1.7b" {| pipe := {| pipe_handle := h; tokenizer := tok |};
                               llm_pad_token_id := pad |} ;;;
   logger_info ("LLM " +:+ name info +:+ " loaded successfully!") ;;;
   cache <- gets llm_cache ;;
   cache_getitem cache "smollm2-1.7b") s.
Proof.
  intros Hv. unfold get_llm, bind at 1 2, gets at 1, lift at 1.
  destruct v; try done; cbn [find_key];
    unfold bind, lift, ret, gets; simpl;
    repeat (case_match; simplify_eq; simpl in *; try done).
Qed.

(** The same for [get_llm], whose key is any JSON value. *)
Lemma get_llm_effect (v : json) (s : State) :
  model_cache (get_llm B v s).2 = model_cache s
  /\ match (get_llm B v s).1 with
     | Raise _ => llm_cache (get_llm B v s).2 = llm_cache s
     | Return l =>
         match cached_llm s v with
         | Some l0 => l = l0 /\ (get_llm B v s).2 = s
         | None =>
             llm_cache (get_llm B v s).2
             = <[llm_key_for v := l]> (llm_cache s)
         end
     end.
Proof.
  destruct v as [|b|z|x|k|items|fields]; try done.
  5: { cbn [cached_llm llm_key_for].
       destruct (llm_cache s !! k) as [l0|] eqn:Hk.
       { by rewrite (get_llm_hit B k l0 s Hk). }
       rewrite (get_llm_miss B k s Hk). apply get_llm_load_effect. }
  all: rewrite get_llm_not_str by done;
    apply (get_llm_load_effect "smollm2-1.7b" s).
Qed.

End LoadEffect.

(** ** From the loaders to the handlers *)

Section Around.
Context (R : relation State) `{!Silent R} (B : Backend).

(** What the loader respects on the states the handler can hand it, the
    whole handler respects. *)
Lemma caption_image_respects (req : CaptionRequest) (s : State) :
  (forall s0, R s s0 ->
              R s (get_model B (default "florence-2" (form req !! "model")) s0).2) ->
  R s (caption_image B req s).2.
Proof.
  intros Hload. unfold caption_image.
  destruct (files req !! "image") as [file|] eqn:Hf.
  2: { unfold handle_errors, caption_image_body. rewrite Hf. apply silent_log. }
  destruct (decide (filename file = "")) as [Hn|Hn].
  { unfold handle_errors, caption_image_body. rewrite Hf.
    rewrite decide_True by done. apply silent_log. }
  unfold handle_errors.
  rewrite (caption_image_body_steps B req file s Hf Hn). cbv zeta.
  set (s0 := record (EvImageOpen (stream file)) s).
  assert (H0 : R s s0) by (by apply silent_record).
  destruct (image_open B (stream file)) as [image|e].
  2: { etrans; [exact H0 | apply silent_log]. }
  specialize (Hload s0 H0).
  destruct (get_model B _ s0) as [[loaded|e] s1]; cbn [snd] in Hload.
  2: { etrans; [exact Hload | apply silent_log]. }
  set (adapter := match loaded with
                  | LFlorence p m => florence_caption B p m image _ _
                  | LMoondream m => moondream_caption B m _ image _ _
                  | LPipeline h => pipeline_caption B h image
                  end).
  assert (Ha : R s1 (adapter s1).2).
  { destruct loaded; [apply (respects_florence_caption R)
                     | apply (respects_moondream_caption R)
                     | apply (respects_pipeline_caption R)]. }
  destruct (adapter s1) as [[text|e] s2]; cbn [snd] in *.
  - etrans; [exact Hload |]. etrans; [exact Ha | apply silent_log].
  - etrans; [exact Hload |]. etrans; [exact Ha | apply silent_log].
Qed.

Lemma generate_text_respects (body : option json) (s : State) :
  (forall args, generate_args B body s = (Return args, s) ->
                R s (get_llm B (g_model_key args) s).2) ->
  R s (generate_text B body s).2.
Proof.
  intros Hload. unfold generate_text, handle_errors.
  rewrite generate_text_body_steps.
  pose proof (generate_args_state B body s) as Hs.
  destruct (generate_args B body s) as [[args|e] s0]; cbn [snd] in Hs; subst s0.
  2: { apply silent_log. }
  specialize (Hload args eq_refl).
  destruct (get_llm B (g_model_key args) s) as [[loaded|e] s1]; cbn [snd] in Hload.
  2: { etrans; [exact Hload | apply silent_log]. }
  cbv zeta.
  set (s2 := record _ s1).
  assert (H2 : R s s2).
  { etrans; [exact Hload | by apply silent_record]. }
  repeat (case_match; simplify_eq); cbn [snd];
    repeat (etrans; [| apply silent_log]); exact H2.
Qed.

End Around.

(** ** The two caches are independent, and only grow *)

#[local] Instance same_llm_cache_silent : Silent same_llm_cache.
Proof.
  split; [split |..].
  - by intros s.
  - intros s1 s2 s3 H1 H2. unfold same_llm_cache in *. congruence.
  - by intros e s _.
  - by intros level msg s.
Qed.

#[local] Instance same_model_cache_silent : Silent same_model_cache.
Proof.
  split; [split |..].
  - by intros s.
  - intros s1 s2 s3 H1 H2. unfold same_model_cache in *. congruence.
  - by intros e s _.
  - by intros level msg s.
Qed.

#[local] Instance entries_kept_silent : Silent entries_kept.
Proof.
  split; [split |..].
  - by intros s.
  - intros s1 s2 s3 (A1 & A2 & A3 & A4) (C1 & C2 & C3 & C4).
    split_and!; eauto.
  - by intros e s _.
  - by intros level msg s.
Qed.

Lemma model_key_for_fresh (q k : string) (s : State) (l : LoadedModel) :
  model_cache s !! q = None -> model_cache s !! k = Some l ->
  k <> "blip-base" -> k <> model_key_for q.
Proof.
  intros Hq Hk Hne ->. unfold model_key_for in *.
  destruct (dict_mem MODELS q); congruence.
Qed.

Lemma llm_key_for_fresh (v : json) (k : string) (s : State) (l : LoadedLLM) :
  cached_llm s v = None -> llm_cache s !! k = Some l ->
  k <> "smollm2-1.7b" -> k <> llm_key_for v.
Proof.
  intros Hv Hk Hne ->. unfold llm_key_for, cached_llm in *.
  destruct v as [| | | |x| |]; try done.
  destruct (dict_mem LLM_MODELS x); congruence.
Qed.

Lemma get_model_keeps_entries (B : Backend) (q : string) (s : State) :
  entries_kept s (get_model B q s).2.
Proof.
  destruct (get_model_effect B q s) as [Hl Hm].
  destruct (get_model B q s) as [[l|e] s']; cbn [fst snd] in *.
  - destruct (model_cache s !! q) as [l0|] eqn:Hq.
    + destruct Hm as [_ ->]. reflexivity.
    + unfold entries_kept. rewrite Hl, Hm. split_and!; try done.
      * intros k Hk. rewrite lookup_insert. by case_decide.
      * intros k l0 Hne Hk. rewrite lookup_insert_ne; [done |].
        intros Heq. by apply (model_key_for_fresh q k s l0).
  - unfold entries_kept. by rewrite Hl, Hm.
Qed.

Lemma get_llm_keeps_entries (B : Backend) (v : json) (s : State) :
  entries_kept s (get_llm B v s).2.
Proof.
  destruct (get_llm_effect B v s) as [Hm Hl].
  destruct (get_llm B v s) as [[l|e] s']; cbn [fst snd] in *.
  - destruct (cached_llm s v) as [l0|] eqn:Hv.
    + destruct Hl as [_ ->]. reflexivity.
    + unfold entries_kept. rewrite Hl, Hm. split_and!; try done.
      * intros k Hk. rewrite lookup_insert. by case_decide.
      * intros k l0 Hne Hk. rewrite lookup_insert_ne; [done |].
        intros Heq. by apply (llm_key_for_fresh v k s l0).
  - unfold entries_kept. by rewrite Hl, Hm.
Qed.

(** X1: a POST /caption never touches the cache of text models, a
    POST /generate never touches the cache of image models, and
    GET /models and GET /health leave the whole state as it is. *)
Theorem requests_touch_their_own_cache (B : Backend) (r : Request) (s : State) :
  match r with
  | PostCaption _ => llm_cache (serve B r s).2 = llm_cache s
  | PostGenerate _ => model_cache (serve B r s).2 = model_cache s
  | GetModels | GetHealth => (serve B r s).2 = s
  end.
Proof.
  destruct r as [|req|body|]; cbn [serve]; try done.
  - apply (caption_image_respects same_llm_cache). intros s0 H0.
    unfold same_llm_cache in *.
    by rewrite (proj1 (get_model_effect B _ s0)).
  - apply (generate_text_respects same_model_cache). intros args _.
    apply (proj1 (get_llm_effect B _ s)).
Qed.

(** X2: no request ever drops a cache entry, and no request changes the
    entry under a key other than "blip-base" (image models) or
    "smollm2-1.7b" (text models): once such a model is loaded, every later
    request finds the same object. *)
Theorem requests_keep_entries (B : Backend) (r : Request) (s : State) :
  (forall k, is_Some (model_cache s !! k) ->
             is_Some (model_cache (serve B r s).2 !! k))
  /\ (forall k l, k <> "blip-base" -> model_cache s !! k = Some l ->
                  model_cache (serve B r s).2 !! k = Some l)
  /\ (forall k, is_Some (llm_cache s !! k) ->
                is_Some (llm_cache (serve B r s).2 !! k))
  /\ (forall k l, k <> "smollm2-1.7b" -> llm_cache s !! k = Some l ->
                  llm_cache (serve B r s).2 !! k = Some l).
Proof.
  change (entries_kept s (serve B r s).2).
  destruct r as [|req|body|]; cbn [serve]; try reflexivity.
  - apply (caption_image_respects entries_kept). intros s0 H0.
    etrans; [exact H0 | apply get_model_keeps_entries].
  - apply (generate_text_respects entries_kept). intros args _.
    apply get_llm_keeps_entries.
Qed.

(** X3: a load that raises leaves both caches as they were, so nothing
    records the failure and the next call tries again; this holds also
    when the Florence processor was built and the model was not. *)
Theorem failed_load_changes_no_cache (B : Backend) :
  (forall q s e s', get_model B q s = (Raise e, s') -> same_caches s s')
  /\ (forall v s e s', get_llm B v s = (Raise e, s') -> same_caches s s').
Proof.
  split.
  - intros q s e s' H. destruct (get_model_effect B q s) as [Hl Hm].
    rewrite H in Hl, Hm. by split.
  - intros v s e s' H. destruct (get_llm_effect B v s) as [Hm Hl].
    rewrite H in Hl, Hm. by split.
Qed.

(** ** Failures before any model is involved *)

(** X4: an upload that cannot be decoded is answered 500 with the
    decoder's message before any model is looked up: the caches are as
    they were and the only backend call was the decoding. *)
Theorem undecodable_image_loads_nothing (B : Backend) (req : CaptionRequest)
    (file : FileStorage) (e : string) (s : State) :
  files req !! "image" = Some file ->
  filename file <> "" ->
  image_open B (stream file) = Raise e ->
  caption_image B req s =
  ({| status := 500;
      body := JObj [("error", JStr ("Error analyzing image: " +:+ e))] |},
   {| model_cache := model_cache s; llm_cache := llm_cache s;
      clock := S (clock s);
      trace := (trace s ++ [EvImageOpen (stream file)])
               ++ [EvLog "ERROR" ("Error analyzing image: " +:+ format_exc B e)] |}).
Proof.
  intros Hf Hn He. unfold caption_image, handle_errors.
  rewrite (caption_image_body_steps B req file s Hf Hn). cbv zeta.
  by rewrite He.
Qed.

Lemma undecodable_image_loads_nothing_witness :
  let s := create_app Demo.backend false in
  let req := {| files := {[ "image" := {| filename := "cat.png"; stream := "" |} ]};
                form := {[ "model" := "blip-large" ]} |} in
  caption_image Demo.backend req s =
  ({| status := 500;
      body := JObj [("error", JStr ("Error analyzing image: " +:+
                                    "cannot identify image file"))] |},
   {| model_cache := model_cache s; llm_cache := llm_cache s;
      clock := S (clock s);
      trace := (trace s ++ [EvImageOpen ""])
               ++ [EvLog "ERROR" ("Error analyzing image: " +:+
                     format_exc Demo.backend "cannot identify image file")] |}).
Proof.
  intros s req.
  apply (undecodable_image_loads_nothing Demo.backend req
           {| filename := "cat.png"; stream := "" |}); by vm_compute.
Defined.

(** X8: a [model] field that is a JSON array or object cannot be looked
    up in the cache (it is not hashable): the answer is 500 with the
    message of the [TypeError], nothing is loaded and no backend call is
    made. *)
Theorem unhashable_model_is_rejected (B : Backend) (body : option json)
    (args : GenerateArgs) (s : State) :
  generate_args B body s = (Return args, s) ->
  type_name (g_model_key args) = "list" \/ type_name (g_model_key args) = "dict" ->
  generate_text B body s =
  ({| status := 500;
      body := JObj [("error",
        JStr ("Error generating text: unhashable type: '"
              +:+ type_name (g_model_key args) +:+ "'"))] |},
   log "ERROR"
     ("Error generating text: "
      +:+ format_exc B ("unhashable type: '" +:+ type_name (g_model_key args) +:+ "'"))
     s).
Proof.
  intros Ha Hk. unfold generate_text, handle_errors.
  rewrite generate_text_body_steps, Ha.
  destruct (g_model_key args); destruct Hk as [Hk|Hk]; try discriminate Hk; done.
Qed.

Lemma unhashable_model_is_rejected_witness :
  let s := create_app Demo.backend false in
  generate_text Demo.backend (Some (JObj [("model", JArr [JStr "phi3-mini"])])) s =
  ({| status := 500;
      body := JObj [("error",
        JStr ("Error generating text: unhashable type: '" +:+ "list" +:+ "'"))] |},
   log "ERROR"
     ("Error generating text: "
      +:+ format_exc Demo.backend ("unhashable type: '" +:+ "list" +:+ "'"))
     s).
Proof.
  intros s.
  apply (unhashable_model_is_rejected Demo.backend
           (Some (JObj [("model", JArr [JStr "phi3-mini"])]))
           {| g_prompt := JStr ""; g_model_key := JArr [JStr "phi3-mini"];
              g_max_new_tokens := 256; g_temperature := default_temperature |} s).
  - by vm_compute.
  - left. reflexivity.
Defined.

(** ** The shape of the responses *)

(** X5: POST /caption answers 200, 400 or 500 and nothing else.  It
    answers 400 exactly when the form has no [image] file or the file has
    an empty filename; a 200 body has the single field [text]; a 500 body
    has the single field [error], a string that starts with
    "Error analyzing image: ". *)
Theorem caption_image_response_shape (B : Backend) (req : CaptionRequest) (s : State) :
  let r := (caption_image B req s).1 in
  let no_upload :=
    files req !! "image" = None
    \/ exists file, files req !! "image" = Some file /\ filename file = "" in
  (status r = 400 <-> no_upload)
  /\ ((status r = 200 /\ exists text, body r = JObj [("text", text)])
      \/ (status r = 400
          /\ (body r = JObj [("error", JStr "No image provided")]
              \/ body r = JObj [("error", JStr "No image selected")]))
      \/ (status r = 500
          /\ exists e, body r = JObj [("error", JStr ("Error analyzing image: " +:+ e))])).
Proof.
  cbv zeta. unfold caption_image, handle_errors.
  destruct (files req !! "image") as [file|] eqn:Hf.
  2: { unfold caption_image_body. rewrite Hf. cbn. split; [| eauto].
       split; [by left | done]. }
  destruct (decide (filename file = "")) as [Hn|Hn].
  { unfold caption_image_body. rewrite Hf. rewrite decide_True by done. cbn.
    split; [| eauto 6]. split; [| done]. intros _. right. eauto. }
  rewrite (caption_image_body_steps B req file s Hf Hn). cbv zeta.
  assert (Hno : ~ (Some file = None
                   \/ exists file0, Some file = Some file0 /\ filename file0 = "")).
  { intros [? | (f & ? & ?)]; simplify_eq. }
  repeat (case_match; simplify_eq); cbn [fst status body jsonify jsonify_with];
    (split; [split; [discriminate | by intros ?] |]); eauto 8.
Qed.

(** X6: POST /generate answers 200 or 500, never 400.  A 200 is only
    given when the body is a JSON object (or stands for the empty one)
    whose prompt is a string; its [text] is a string and its [model] is
    the [model] value of the request as it was sent, "smollm2-1.7b" when
    there was none, whichever model served the request.  A 500 body has
    the single field [error], a string that starts with
    "Error generating text: ". *)
Theorem generate_text_response_shape (B : Backend) (payload : option json) (s : State) :
  let r := (generate_text B payload s).1 in
  (status r = 200
   /\ exists d p text,
        get_json_or_empty payload = JObj d
        /\ default (JStr "") (dict_get d "prompt") = JStr p
        /\ body r =
           JObj [("text", JStr text);
                 ("model", default (JStr "smollm2-1.7b") (dict_get d "model"))])
  \/ (status r = 500
      /\ exists e, body r = JObj [("error", JStr ("Error generating text: " +:+ e))]).
Proof.
  cbv zeta. unfold generate_text, handle_errors.
  rewrite generate_text_body_steps.
  destruct (get_json_or_empty payload) as [| | | | | |d] eqn:Hd;
    try solve [right; unfold generate_args; rewrite Hd; cbn; eauto].
  rewrite (generate_args_dict B payload d s Hd).
  destruct (py_int B _) as [n|e]; [| right; cbn; eauto].
  destruct (py_float B _) as [t|e]; [| right; cbn; eauto].
  cbn [g_prompt g_model_key g_max_new_tokens g_temperature].
  destruct (get_llm B _ s) as [[loaded|e] s1]; [| right; cbn; eauto].
  cbv zeta.
  destruct (sample B _ _ _ _ _ _) as [outputs|e]; [| right; cbn; eauto].
  destruct (list_getitem outputs 0) as [first|e]; [| right; cbn; eauto].
  destruct (dict_getitem first "generated_text") as [generated|e];
    [| right; cbn; eauto].
  destruct (continuation generated _) as [text|e] eqn:Hc; [| right; cbn; eauto].
  left. split; [done |].
  unfold continuation in Hc.
  destruct generated as [| | | |g| |]; try discriminate Hc.
  destruct (default (JStr "") (dict_get d "prompt")) as [| | | |p| |] eqn:Hp;
    try discriminate Hc.
  injection Hc as <-. cbn. eauto 8.
Qed.

(** ** Cache entries and their descriptors *)

#[local] Instance keeps_coherent_silent : Silent keeps_coherent.
Proof.
  split; [split |..].
  - intros s. unfold keeps_coherent. auto.
  - intros s1 s2 s3 H1 H2. unfold keeps_coherent in *. auto.
  - intros e s _. unfold keeps_coherent. auto.
  - intros level msg s. unfold keeps_coherent. auto.
Qed.

#[local] Instance keeps_coherent_buildable : Buildable keeps_coherent.
Proof. intros k h rev s. unfold keeps_coherent. auto. Qed.

Section Built.
Variable B : Backend.

Lemma model_key_for_registered (q : string) :
  exists info, dict_get MODELS (model_key_for q) = Some info.
Proof.
  pose proof (fallback_model_registered q) as H.
  fold (model_key_for q) in H.
  apply bool_decide_eq_true in H. by destruct H as [info ?]; exists info.
Qed.

(** What [get_model] returns for a key that was not cached was built
    from the descriptor of [model_key_for]. *)
Lemma get_model_returns_built (q : string) (s s' : State) (l : LoadedModel) :
  model_cache s !! q = None ->
  get_model B q s = (Return l, s') ->
  exists info, dict_get MODELS (model_key_for q) = Some info /\ built_from info l.
Proof.
  intros Hq H. rewrite (get_model_miss B q s Hq) in H.
  fold (model_key_for q) in H.
  destruct (model_key_for_registered q) as [info Hinfo].
  exists info. split; [done |]. revert H.
  generalize dependent (model_key_for q). intros k Hinfo.
  unfold dict_getitem. rewrite Hinfo.
  unfold load_model, store_model, logger_info.
  unfold bind, lift, modify, build, gets, cache_getitem, ret, raise.
  repeat case_decide;
    repeat (match goal with
            | |- context [construct B ?n ?a ?b ?c] =>
                destruct (construct B n a b c)
            end;
            cbn [fst snd model_cache llm_cache log record set_model_cache]);
    rewrite ?lookup_insert_eq; intros Hret; simplify_eq; by cbn.
Qed.

Lemma resolve_pad_facts (info_pad : option Z) (tok : option Tokenizer) :
  let r := resolve_pad info_pad tok in
  (forall p, info_pad = Some p -> r.1 = Some p)
  /\ (r.2 = None -> r.1 = info_pad)
  /\ (forall t, r.2 = Some t -> r.1 <> None -> tok_pad_token_id t <> None).
Proof.
  unfold resolve_pad. destruct tok as [t|]; cbn; [| by split_and!].
  split_and!.
  - by intros p ->.
  - done.
  - intros t' [= <-] Hne.
    destruct (tok_pad_token_id t) as [x|] eqn:Ht; [by rewrite Ht |].
    destruct info_pad as [p|]; [done |].
    cbn in *. by destruct (tok_eos_token_id t).
Qed.

Lemma llm_key_for_registered (v : json) :
  exists info, dict_get LLM_MODELS (llm_key_for v) = Some info.
Proof.
  assert (H : dict_mem LLM_MODELS (llm_key_for v) = true).
  { unfold llm_key_for. destruct v as [| | | |x| |]; try done.
    by destruct (dict_mem LLM_MODELS x) eqn:E. }
  apply bool_decide_eq_true in H. by destruct H as [info ?]; exists info.
Qed.

Lemma get_llm_load_returns_built (k : string) (info : ModelInfo) (s s' : State)
    (l : LoadedLLM) :
  dict_get LLM_MODELS k = Some info ->
  (info <- lift (dict_getitem LLM_MODELS k) ;;
   logger_info ("Loading LLM " +:+ name info +:+ "...") ;;;
   h <- build B (KPipeline "text-generation") (model info) None ;;
   let '(pad, tok) := resolve_pad (pad_token_id info) (tokenizer_of B (model info)) in
   store_llm k {| pipe := {| pipe_handle := h; tokenizer := tok |};
                  llm_pad_token_id := pad |} ;;;
   logger_info ("LLM " +:+ name info +:+ " loaded successfully!") ;;;
   cache <- gets llm_cache ;;
   cache_getitem cache k) s = (Return l, s') ->
  llm_built_from info l.
Proof.
  intros Hinfo. unfold dict_getitem. rewrite Hinfo.
  unfold store_llm, logger_info.
  unfold bind, lift, modify, build, gets, cache_getitem, ret, raise.
  cbn [fst snd clock log].
  destruct (construct B (clock s) _ _ _); [| done].
  pose proof (resolve_pad_facts (pad_token_id info) (tokenizer_of B (model info)))
    as (F1 & F2 & F3).
  destruct (resolve_pad _ _) as [pad tok].
  cbn [fst snd model_cache llm_cache log record set_llm_cache] in *.
  rewrite lookup_insert_eq. intros H. simplify_eq.
  unfold llm_built_from. cbn. by split_and!.
Qed.

Lemma get_llm_returns_built (v : json) (s s' : State) (l : LoadedLLM) :
  cached_llm s v = None ->
  get_llm B v s = (Return l, s') ->
  exists info, dict_get LLM_MODELS (llm_key_for v) = Some info
               /\ llm_built_from info l.
Proof.
  intros Hv H. destruct (llm_key_for_registered v) as [info Hinfo].
  exists info. split; [done |].
  destruct v as [|b|z|x|k|items|fields]; try done.
  5: { cbn [cached_llm] in Hv. rewrite (get_llm_miss B k s Hv) in H.
       by apply (get_llm_load_returns_built _ info) in H. }
  all: rewrite get_llm_not_str in H by done;
    by apply (get_llm_load_returns_built _ info) in H.
Qed.

Lemma get_model_keeps_coherent (q : string) (s : State) :
  keeps_coherent s (get_model B q s).2.
Proof.
  intros [Hm Hl].
  destruct (get_model_effect B q s) as [El Em].
  destruct (get_model B q s) as [[l|e] s'] eqn:E; cbn [fst snd] in *.
  - destruct (model_cache s !! q) as [l0|] eqn:Hq.
    + destruct Em as [_ ->]. by split.
    + split; rewrite ?El, ?Em; [| done].
      intros k l1. rewrite lookup_insert. case_decide as Hk.
      * intros [= <-]. subst k. by apply (get_model_returns_built q s s').
      * apply Hm.
  - split; by rewrite ?El, ?Em.
Qed.

Lemma get_llm_keeps_coherent (v : json) (s : State) :
  keeps_coherent s (get_llm B v s).2.
Proof.
  intros [Hm Hl].
  destruct (get_llm_effect B v s) as [Em El].
  destruct (get_llm B v s) as [[l|e] s'] eqn:E; cbn [fst snd] in *.
  - destruct (cached_llm s v) as [l0|] eqn:Hv.
    + destruct El as [_ ->]. by split.
    + split; rewrite ?El, ?Em; [done |].
      intros k l1. rewrite lookup_insert. case_decide as Hk.
      * intros [= <-]. subst k. by apply (get_llm_returns_built v s s').
      * apply Hl.
  - split; by rewrite ?El, ?Em.
Qed.

Lemma coherent_serve (r : Request) (s : State) :
  caches_coherent s -> caches_coherent (serve B r s).2.
Proof.
  destruct r as [|req|body|]; cbn [serve]; try done.
  - apply (caption_image_respects keeps_coherent). intros s0 H0.
    etrans; [exact H0 | apply get_model_keeps_coherent].
  - apply (generate_text_respects keeps_coherent). intros args _.
    apply get_llm_keeps_coherent.
Qed.

Lemma coherent_create_app (debug : bool) : caches_coherent (create_app B debug).
Proof.
  unfold create_app.
  set (s1 := log "INFO" "Loading default image captioning model..." _).
  assert (H1 : caches_coherent s1).
  { split; intros k l; unfold s1, setup_logging;
      destruct debug; cbn; by rewrite lookup_empty. }
  pose proof (get_model_keeps_coherent "florence-2" s1 H1) as H2.
  by destruct (get_model B "florence-2" s1) as [[l|e] s2].
Qed.

Lemma coherent_serve_all (rs : list Request) (s : State) :
  caches_coherent s -> caches_coherent (serve_all B rs s).
Proof.
  revert s. induction rs as [|r rs IH]; intros s H; cbn [serve_all]; [done |].
  by apply IH, coherent_serve.
Qed.

End Built.

(** X9: in every state the application reaches, each entry of the image
    cache was built from the descriptor registered under its key: it is
    the tag-prompted adapter exactly for a descriptor of type "florence",
    the conversational one (with the pinned revision) for type
    "moondream", the generic pipeline otherwise, always of the
    descriptor's hub name.  Each entry of the text cache is a
    text-generation pipeline of its descriptor's hub name, carries the
    pad id of the descriptor when it has one, and has a tokenizer with a
    pad id whenever a pad id was found. *)
Theorem cache_entries_match_descriptors (B : Backend) (debug : bool)
    (rs : list Request) :
  let s := serve_all B rs (create_app B debug) in
  (forall k l, model_cache s !! k = Some l ->
               exists info, dict_get MODELS k = Some info /\ built_from info l)
  /\ (forall k l, llm_cache s !! k = Some l ->
                  exists info, dict_get LLM_MODELS k = Some info
                               /\ llm_built_from info l).
Proof. apply coherent_serve_all, coherent_create_app. Qed.

(** ** Requests for a model that is cached *)

Lemma constructions_record (e : Event) (s : State) :
  is_construct e = false -> constructions (record e s) = constructions s.
Proof.
  intros He. unfold constructions, record. cbn [trace].
  rewrite List.filter_app, length_app. cbn. rewrite He. cbn. lia.
Qed.

#[local] Instance nothing_built_silent : Silent nothing_built.
Proof.
  split; [split |..].
  - intros s. by split.
  - intros s1 s2 s3 [H1 C1] [H2 C2]. split; [by etrans | congruence].
  - intros e s He. split; [done | by apply constructions_record].
  - intros level msg s. split; [done | apply constructions_log].
Qed.

Lemma caption_image_cached (B : Backend) (req : CaptionRequest) (s : State)
    (l : LoadedModel) :
  model_cache s !! default "florence-2" (form req !! "model") = Some l ->
  nothing_built s (caption_image B req s).2.
Proof.
  intros Hl.
  apply (caption_image_respects nothing_built). intros s0 [[Hm H0] Hc].
  rewrite (get_model_hit B _ l s0) by (by rewrite Hm).
  by split.
Qed.

Lemma generate_text_cached (B : Backend) (payload : option json) (s : State)
    (args : GenerateArgs) (l : LoadedLLM) :
  generate_args B payload s = (Return args, s) ->
  cached_llm s (g_model_key args) = Some l ->
  nothing_built s (generate_text B payload s).2.
Proof.
  intros Ha Hl.
  apply (generate_text_respects nothing_built). intros args' Ha'.
  rewrite Ha in Ha'. injection Ha' as <-.
  destruct (g_model_key args) as [| | | |k| |]; try discriminate Hl.
  cbn [cached_llm] in Hl. rewrite (get_llm_hit B k l s Hl). by split.
Qed.

(** X11: a request for a model that is in the cache builds no backend
    object and leaves both caches as they are, whatever the adapter then
    does: this holds for POST /caption, with the model of the form or
    "florence-2", and for POST /generate, with the model of the body. *)
Theorem cached_model_is_not_rebuilt (B : Backend) (s : State) :
  (forall req l,
      model_cache s !! default "florence-2" (form req !! "model") = Some l ->
      same_caches s (caption_image B req s).2
      /\ constructions (caption_image B req s).2 = constructions s)
  /\ (forall payload args l,
        generate_args B payload s = (Return args, s) ->
        cached_llm s (g_model_key args) = Some l ->
        same_caches s (generate_text B payload s).2
        /\ constructions (generate_text B payload s).2 = constructions s).
Proof.
  split.
  - intros req l. apply caption_image_cached.
  - intros payload args l. apply generate_text_cached.
Qed.

Lemma cached_model_is_not_rebuilt_witness :
  let s := create_app Demo.backend false in
  let s' := (caption_image Demo.backend (Demo.upload [("question", "what?")]) s).2 in
  same_caches s s' /\ constructions s' = constructions s.
Proof.
  intros s s'.
  apply (proj1 (cached_model_is_not_rebuilt Demo.backend s)
               (Demo.upload [("question", "what?")])
               (LFlorence
                  {| hid := 0; hkind := KProcessor;
                     hub := "microsoft/Florence-2-base"; hrev := None |}
                  {| hid := 1; hkind := KCausalLM;
                     hub := "microsoft/Florence-2-base"; hrev := None |})).
  by vm_compute.
Defined.

(** ** Generic pipeline models *)

Section PipelineModels.
Variable B : Backend.

(** On coherent caches, whatever [get_model] returns was built from the
    descriptor of [model_key_for]. *)
Lemma get_model_returns_coherent (q : string) (s s' : State) (l : LoadedModel) :
  caches_coherent s ->
  get_model B q s = (Return l, s') ->
  exists info, dict_get MODELS (model_key_for q) = Some info /\ built_from info l.
Proof.
  intros [Hm _] H.
  destruct (model_cache s !! q) as [l0|] eqn:Hq.
  - rewrite (get_model_hit B q l0 s Hq) in H. injection H as <- <-.
    destruct (Hm q l0 Hq) as (info & Hinfo & Hb).
    exists info. split; [| done].
    unfold model_key_for, dict_mem.
    rewrite bool_decide_eq_true_2; [done | by rewrite Hinfo].
  - by apply (get_model_returns_built B q s s').
Qed.

End PipelineModels.

(** X10: the generic pipeline models have no mode or question support:
    in every state the application reaches, two POST /caption requests
    with the same upload and the same [model] field, whose descriptor
    (that of "blip-base" for an unregistered identifier) has no adapter
    type, get the same response and leave the same state, whatever their
    [question] and [mode] fields are. *)
Theorem pipeline_models_ignore_question_and_mode (B : Backend) (debug : bool)
    (rs : list Request) (req1 req2 : CaptionRequest) (q : string)
    (info : ModelInfo) :
  files req1 = files req2 ->
  form req1 !! "model" = Some q ->
  form req2 !! "model" = Some q ->
  dict_get MODELS (model_key_for q) = Some info ->
  type info <> Some "florence" ->
  type info <> Some "moondream" ->
  let s := serve_all B rs (create_app B debug) in
  caption_image B req1 s = caption_image B req2 s.
Proof.
  intros Hfiles H1 H2 Hinfo Hf Hm s.
  assert (Hs : caches_coherent s)
    by apply coherent_serve_all, coherent_create_app.
  unfold caption_image, handle_errors.
  destruct (files req2 !! "image") as [file|] eqn:Hfile.
  2: { unfold caption_image_body. by rewrite Hfiles, Hfile. }
  destruct (decide (filename file = "")) as [Hn|Hn].
  { unfold caption_image_body. rewrite Hfiles, Hfile.
    by rewrite !decide_True. }
  rewrite (caption_image_body_steps B req1 file s) by (rewrite ?Hfiles; done).
  rewrite (caption_image_body_steps B req2 file s) by done.
  cbv zeta. rewrite H1, H2.
  change (default "florence-2" (Some q)) with q.
  destruct (image_open B (stream file)) as [image|e]; [| done].
  destruct (get_model B q _) as [[loaded|e] s1] eqn:E; [| done].
  apply get_model_returns_coherent in E; [| done].
  destruct E as (info' & Hinfo' & Hb). rewrite Hinfo in Hinfo'.
  injection Hinfo' as <-.
  destruct loaded as [p m|m|h]; cbn in Hb; by destruct Hb.
Qed.

Lemma pipeline_models_ignore_question_and_mode_witness :
  let s := serve_all Demo.backend [PostCaption (Demo.upload [("model", "vit-gpt2")])]
             (create_app Demo.backend false) in
  caption_image Demo.backend
    (Demo.upload [("model", "vit-gpt2"); ("question", "what?"); ("mode", "roast")]) s
  = caption_image Demo.backend (Demo.upload [("model", "vit-gpt2")]) s.
Proof.
  apply (pipeline_models_ignore_question_and_mode Demo.backend false
           [PostCaption (Demo.upload [("model", "vit-gpt2")])]
           (Demo.upload [("model", "vit-gpt2"); ("question", "what?"); ("mode", "roast")])
           (Demo.upload [("model", "vit-gpt2")]) "vit-gpt2"
           (plain "ViT-GPT2" "nlpconnect/vit-gpt2-image-captioning"
                  "Alternative model (500MB)")); by vm_compute.
Defined.

Lemma failed_load_changes_no_cache_witness :
  (forall s',
      get_model no_weights "florence-2" empty_state
      = (Raise "weights not found", s') ->
      same_caches empty_state s')
  /\ (get_model no_weights "florence-2" empty_state).1 = Raise "weights not found"
  /\ constructions (get_model no_weights "florence-2" empty_state).2 = 2%nat.
Proof.
  split_and!.
  - intros s'.
    exact (proj1 (failed_load_changes_no_cache no_weights)
                 "florence-2" empty_state "weights not found" s').
  - by vm_compute.
  - by vm_compute.
Defined.

(** ** Startup *)

(** X12: [create_app] never touches the text cache and leaves the image
    cache in one of two shapes.  Either the warm-up succeeded: the cache
    holds exactly "florence-2", a tag-prompted entry built from
    "microsoft/Florence-2-base" with two constructions.  Or it failed: the
    cache is empty and the last log line is the error
    "Failed to load default model: ..."; the application starts all the
    same. *)
Theorem warm_up_loads_florence_or_nothing (B : Backend) (debug : bool) :
  let s := create_app B debug in
  llm_cache s = ∅
  /\ ((exists p m,
         model_cache s = {[ "florence-2" := LFlorence p m ]}
         /\ hub p = "microsoft/Florence-2-base"
         /\ hub m = "microsoft/Florence-2-base"
         /\ constructions s = 2%nat)
      \/ (model_cache s = ∅
          /\ exists e,
               last (trace s) =
               Some (EvLog "ERROR"
                       ("Failed to load default model: " +:+ format_exc B e)))).
Proof.
  cbv zeta. unfold create_app.
  set (s1 := log "INFO" "Loading default image captioning model..." _).
  assert (Hc : model_cache s1 !! "florence-2" = None).
  { unfold s1, setup_logging. by destruct debug. }
  rewrite (get_model_miss B "florence-2" s1 Hc).
  change (dict_mem MODELS "florence-2") with true. cbv zeta.
  unfold load_model, store_model, logger_info.
  unfold bind, lift, modify, build, gets, cache_getitem, ret, raise.
  change (dict_getitem MODELS "florence-2") with (Return florence_info).
  cbn beta iota. rewrite decide_True by done.
  change (model florence_info) with "microsoft/Florence-2-base".
  cbn [fst snd clock log record].
  destruct (construct B (clock s1) KProcessor _ _).
  2: { split; [by destruct debug |]. right.
       split; [by destruct debug |]. eexists. cbn [trace log].
       by rewrite last_snoc. }
  cbn [fst snd clock log record].
  destruct (construct B _ KCausalLM _ _).
  2: { split; [by destruct debug |]. right.
       split; [by destruct debug |]. eexists. cbn [trace log].
       by rewrite last_snoc. }
  cbn [fst snd model_cache llm_cache log record set_model_cache].
  rewrite lookup_insert_eq.
  split; [by destruct debug |]. left. do 2 eexists.
  split.
  { unfold s1, setup_logging, empty_state.
    destruct debug; cbn [model_cache log record]; by rewrite insert_empty. }
  split; [reflexivity |]. split; [reflexivity |].
  unfold s1, setup_logging. by destruct debug.
Qed.

(** ** What the adapters make of the backend's answer *)

(** X13: the generic pipeline adapter takes the [generated_text] of the
    first item the pipeline returns, whatever JSON value it is, and
    ignores the other items.  An empty answer is an [IndexError] and a
    first item without that key a [KeyError]: the request is answered 500
    with "list index out of range" or "'generated_text'".  In every case
    the model loaded for the request stays in the cache. *)
Theorem pipeline_adapter_reads_first_item (B : Backend) (req : CaptionRequest)
    (file : FileStorage) (image : Image) (h : Handle) (s s1 : State)
    (outputs : list (list (string * json))) :
  files req !! "image" = Some file ->
  filename file <> "" ->
  image_open B (stream file) = Return image ->
  get_model B (default "florence-2" (form req !! "model"))
            (record (EvImageOpen (stream file)) s) = (Return (LPipeline h), s1) ->
  captioner B (clock s1) (hub h) image = Return outputs ->
  let r := caption_image B req s in
  same_caches s1 r.2
  /\ (outputs = [] ->
      r.1 = {| status := 500;
               body := JObj [("error",
                 JStr "Error analyzing image: list index out of range")] |})
  /\ (forall first rest, outputs = first :: rest ->
        dict_get first "generated_text" = None ->
        r.1 = {| status := 500;
                 body := JObj [("error",
                   JStr "Error analyzing image: 'generated_text'")] |})
  /\ (forall first rest v, outputs = first :: rest ->
        dict_get first "generated_text" = Some v ->
        r.1 = {| status := 200; body := JObj [("text", v)] |}).
Proof.
  intros Hf Hn Hi Hm Hc. cbv zeta.
  unfold caption_image, handle_errors.
  rewrite (caption_image_body_steps B req file s Hf Hn). cbv zeta.
  rewrite Hi, Hm.
  unfold pipeline_caption, bind, call_at, lift. rewrite Hc.
  destruct outputs as [|first rest].
  - cbn. split_and!; done.
  - cbn [list_getitem lookup list_lookup]. unfold dict_getitem.
    destruct (dict_get first "generated_text") as [v|] eqn:Hv; cbn.
    + split_and!; try done; intros; by simplify_eq.
    + split_and!; try done; intros; by simplify_eq.
Qed.

Lemma pipeline_adapter_reads_first_item_witness :
  let B := with_captioner (fun _ _ _ => Return []) Demo.backend in
  let s := create_app B false in
  let r := caption_image B (Demo.upload [("model", "blip-large")]) s in
  model_cache r.2 !! "blip-large" =
    Some (LPipeline {| hid := 3; hkind := KPipeline "image-to-text";
                       hub := "Salesforce/blip-image-captioning-large";
                       hrev := None |})
  /\ r.1 = {| status := 500;
              body := JObj [("error",
                JStr "Error analyzing image: list index out of range")] |}.
Proof.
  intros B s r.
  destruct (pipeline_adapter_reads_first_item B
              (Demo.upload [("model", "blip-large")])
              {| filename := "cat.png"; stream := "PNG" |} "PNG"
              {| hid := 3; hkind := KPipeline "image-to-text";
                 hub := "Salesforce/blip-image-captioning-large"; hrev := None |}
              s (get_model B "blip-large" (record (EvImageOpen "PNG") s)).2 []
              ltac:(by vm_compute) ltac:(by vm_compute) ltac:(by vm_compute)
              ltac:(by vm_compute) ltac:(by vm_compute))
    as ([Hm _] & Hempty & _).
  split.
  - fold r in Hm. rewrite Hm. by vm_compute.
  - by apply Hempty.
Defined.

(** X14: the text adapter likewise reads the [generated_text] of the
    first item of the pipeline's answer.  An empty answer, a first item
    without that key, or a [generated_text] that is not a string end the
    request in 500 with the message of the [IndexError], [KeyError] or
    [AttributeError]; the model loaded for the request stays in the
    cache. *)
Theorem text_adapter_reads_first_item (B : Backend) (payload : option json)
    (args : GenerateArgs) (loaded : LoadedLLM) (s s1 : State)
    (outputs : list (list (string * json))) :
  generate_args B payload s = (Return args, s) ->
  get_llm B (g_model_key args) s = (Return loaded, s1) ->
  sample B (clock s1) (pipe loaded) (g_prompt args) (g_max_new_tokens args)
         (g_temperature args) (llm_pad_token_id loaded) = Return outputs ->
  let r := generate_text B payload s in
  same_caches s1 r.2
  /\ (outputs = [] ->
      r.1 = {| status := 500;
               body := JObj [("error",
                 JStr "Error generating text: list index out of range")] |})
  /\ (forall first rest, outputs = first :: rest ->
        dict_get first "generated_text" = None ->
        r.1 = {| status := 500;
                 body := JObj [("error",
                   JStr "Error generating text: 'generated_text'")] |})
  /\ (forall first rest v, outputs = first :: rest ->
        dict_get first "generated_text" = Some v ->
        type_name v <> "str" ->
        r.1 = {| status := 500;
                 body := JObj [("error",
                   JStr ("Error generating text: '" +:+ type_name v
                         +:+ "' object has no attribute 'startswith'"))] |}).
Proof.
  intros Ha Hl Hs. cbv zeta.
  unfold generate_text, handle_errors.
  rewrite generate_text_body_steps, Ha, Hl. cbv zeta. rewrite Hs.
  destruct outputs as [|first rest].
  - cbn. split_and!; done.
  - cbn [list_getitem lookup list_lookup]. unfold dict_getitem.
    destruct (dict_get first "generated_text") as [v|] eqn:Hv.
    + destruct (continuation v (g_prompt args)) as [text|e] eqn:Hc; cbn.
      * split_and!; try done; intros; simplify_eq.
        unfold continuation in Hc. by destruct v.
      * split_and!; try done; intros; simplify_eq.
        unfold continuation in Hc. destruct v; try done; by simplify_eq.
    + cbn. split_and!; try done; intros; by simplify_eq.
Qed.

Lemma text_adapter_reads_first_item_witness :
  let B := with_sample (fun _ _ _ _ _ _ =>
                          Return [[("generated_text", JInt 7)]]) Demo.backend in
  let s := create_app B false in
  let r := generate_text B (Some (JObj [("prompt", JStr "Hi")])) s in
  is_Some (llm_cache r.2 !! "smollm2-1.7b")
  /\ r.1 = {| status := 500;
              body := JObj [("error",
                JStr ("Error generating text: '" +:+ "int"
                      +:+ "' object has no attribute 'startswith'"))] |}.
Proof.
  intros B s r.
  destruct (text_adapter_reads_first_item B (Some (JObj [("prompt", JStr "Hi")]))
              {| g_prompt := JStr "Hi"; g_model_key := JStr "smollm2-1.7b";
                 g_max_new_tokens := 256; g_temperature := default_temperature |}
              (match (get_llm B (JStr "smollm2-1.7b") s).1 with
               | Return l => l
               | Raise _ => {| pipe := {| pipe_handle :=
                                            {| hid := 0; hkind := KProcessor;
                                               hub := ""; hrev := None |};
                                          tokenizer := None |};
                               llm_pad_token_id := None |}
               end)
              s (get_llm B (JStr "smollm2-1.7b") s).2
              [[("generated_text", JInt 7)]]
              ltac:(by vm_compute) ltac:(by vm_compute) ltac:(by vm_compute))
    as ([_ Hc] & _ & _ & Hbad).
  split.
  - fold r in Hc. rewrite Hc. vm_compute. eexists. reflexivity.
  - by apply (Hbad [("generated_text", JInt 7)] [] (JInt 7)).
Defined.

(** ** White space at the ends of a string *)

Lemma rstrip_cons (c : ascii) (r : string) :
  rstrip (String c r) =
  match rstrip r with
  | EmptyString => if isspace c then EmptyString else String c EmptyString
  | r' => String c r'
  end.
Proof. reflexivity. Qed.

Lemma lstrip_lstrip (s : string) : lstrip (lstrip s) = lstrip s.
Proof.
  induction s as [|c r IH]; [done |]. cbn [lstrip].
  destruct (isspace c) eqn:E; [done |]. cbn [lstrip]. by rewrite E.
Qed.

Lemma rstrip_rstrip (s : string) : rstrip (rstrip s) = rstrip s.
Proof.
  induction s as [|c r IH]; [done |]. rewrite rstrip_cons.
  destruct (rstrip r) as [|c' r'] eqn:Er.
  - destruct (isspace c) eqn:Ec; [done |]. rewrite rstrip_cons. cbn [rstrip].
    by rewrite Ec.
  - rewrite rstrip_cons. by rewrite IH.
Qed.

Lemma lstrip_length (s : string) : (String.length (lstrip s) <= String.length s)%nat.
Proof.
  induction s as [|c r IH]; [done |]. cbn [lstrip].
  destruct (isspace c); cbn [String.length]; lia.
Qed.

Lemma lstrip_fixed_head (c : ascii) (r : string) :
  lstrip (String c r) = String c r -> isspace c = false.
Proof.
  cbn [lstrip]. destruct (isspace c); [| done].
  intros H. pose proof (lstrip_length r) as Hl. rewrite H in Hl.
  cbn [String.length] in Hl. lia.
Qed.

Lemma lstrip_rstrip (t : string) : lstrip t = t -> lstrip (rstrip t) = rstrip t.
Proof.
  destruct t as [|c r]; [done |]. intros H.
  apply lstrip_fixed_head in H. rewrite rstrip_cons.
  destruct (rstrip r); rewrite ?H; cbn [lstrip]; by rewrite H.
Qed.

(** [s.strip()] has no white space at either end. *)
Lemma strip_edges (s : string) :
  lstrip (strip s) = strip s /\ rstrip (strip s) = strip s.
Proof.
  unfold strip. split.
  - apply lstrip_rstrip, lstrip_lstrip.
  - apply rstrip_rstrip.
Qed.

Lemma lstrip_split (s : string) : exists a, s = a +:+ lstrip s /\ blank a = true.
Proof.
  induction s as [|c r (a & Ha & Hb)]; [by exists EmptyString |]. cbn [lstrip].
  destruct (isspace c) eqn:E.
  - exists (String c a). split; [by rewrite append_cons, <- Ha |].
    cbn [blank]. by rewrite E, Hb.
  - by exists EmptyString.
Qed.

Lemma rstrip_split (s : string) : exists b, s = rstrip s +:+ b /\ blank b = true.
Proof.
  induction s as [|c r (b & Hb & Hblank)]; [by exists EmptyString |].
  rewrite rstrip_cons. destruct (rstrip r) as [|c' r'] eqn:Er.
  - assert (Hr : r = b) by exact Hb. subst r.
    destruct (isspace c) eqn:Ec.
    + exists (String c b). split; [reflexivity |].
      cbn [blank]. by rewrite Ec, Hblank.
    + exists b. by split.
  - exists b. rewrite append_cons. by rewrite <- Hb.
Qed.

(** [s] is [s.strip()] between two runs of white space. *)
Lemma strip_split (s : string) :
  exists a b, s = a +:+ strip s +:+ b /\ blank a = true /\ blank b = true.
Proof.
  destruct (lstrip_split s) as (a & Ha & Hba).
  destruct (rstrip_split (lstrip s)) as (b & Hb & Hbb).
  exists a, b. unfold strip. by rewrite <- Hb, <- Ha.
Qed.

Lemma blank_app (a b : string) : blank (a +:+ b) = blank a && blank b.
Proof.
  induction a as [|c a IH]; [done |]. rewrite append_cons. cbn [blank].
  rewrite IH. by rewrite andb_assoc.
Qed.

Lemma blank_lstrip (s : string) : blank s = true -> lstrip s = EmptyString.
Proof.
  induction s as [|c r IH]; [done |]. cbn [blank lstrip].
  intros [Hc Hr]%andb_true_iff. rewrite Hc. by apply IH.
Qed.

(** [s.strip()] is empty exactly when [s] is all white space. *)
Lemma strip_blank_iff (s : string) : strip s = EmptyString <-> blank s = true.
Proof.
  split.
  - intros H. destruct (strip_split s) as (a & b & Hs & Ha & Hb).
    rewrite H in Hs. rewrite Hs, !blank_app, Ha, Hb. done.
  - intros H. unfold strip. by rewrite (blank_lstrip s H).
Qed.

(** ** The tag-prompted backend without a question *)

(** X15: for a request served by the tag-prompted backend without a
    question (the field missing or empty), when the backend calls return
    and the decoded caption is [decoded], the text of the response is
    [decoded] when the prompt tag is not a prefix of it; and when
    [decoded] is the tag followed by [t], the text is [t] without the
    white space at its two ends: it has no white space at either end and
    [t] is the text between two runs of white space. *)
Theorem florence_caption_without_question (B : Backend) (req : CaptionRequest)
    (file : FileStorage) (s s1 : State) (image : Image)
    (processor mdl : Handle) (inputs : Tensor * Tensor) (ids : Tensor)
    (decoded : string) (others : list string) :
  files req !! "image" = Some file ->
  filename file <> "" ->
  default "" (form req !! "question") = "" ->
  image_open B (stream file) = Return image ->
  get_model B (default "florence-2" (form req !! "model"))
            (record (EvImageOpen (stream file)) s)
    = (Return (LFlorence processor mdl), s1) ->
  process B (hub processor) (florence_prompt_for_mode (form req !! "mode")) image
    = Return inputs ->
  generate B (S (clock s1)) (hub mdl) inputs.1 inputs.2 256 3 = Return ids ->
  batch_decode B (hub processor) ids = Return (decoded :: others) ->
  let tag := florence_prompt_for_mode (form req !! "mode") in
  exists text,
    (caption_image B req s).1 = {| status := 200; body := JObj [("text", JStr text)] |}
    /\ ((forall t, decoded <> tag +:+ t) -> text = decoded)
    /\ (forall t, decoded = tag +:+ t ->
          lstrip text = text /\ rstrip text = text
          /\ exists a b, t = a +:+ text +:+ b /\ blank a = true /\ blank b = true).
Proof.
  intros Hf Hn Hq Hi Hm Hp Hg Hd tag.
  exists (remove_task_prefix tag decoded). split_and!.
  - unfold caption_image, handle_errors.
    rewrite (caption_image_body_steps B req file s Hf Hn). cbv zeta.
    rewrite Hi, Hm, Hq.
    unfold florence_caption, bind, call, call_at, lift, ret.
    rewrite Hp. cbn [clock record]. rewrite Hg, Hd.
    cbn [list_getitem lookup list_lookup fst]. by cbn.
  - intros Hno. unfold remove_task_prefix.
    destruct (startswith decoded tag) eqn:E; [| done].
    apply startswith_spec in E as [t Ht]. by destruct (Hno t).
  - intros t ->. unfold remove_task_prefix.
    rewrite startswith_app, slice_from_app.
    destruct (strip_edges t) as [H1 H2]. split_and!; [done | done |].
    apply strip_split.
Qed.

Lemma florence_caption_without_question_witness :
  exists text,
    (caption_image Demo.backend (Demo.upload [("mode", "caption")])
                   (create_app Demo.backend false)).1
    = {| status := 200; body := JObj [("text", JStr text)] |}
    /\ ((forall t, "<CAPTION> A cat sits on a mat. " <> "<CAPTION>" +:+ t) ->
        text = "<CAPTION> A cat sits on a mat. ")
    /\ (forall t, "<CAPTION> A cat sits on a mat. " = "<CAPTION>" +:+ t ->
          lstrip text = text /\ rstrip text = text
          /\ exists a b, t = a +:+ text +:+ b /\ blank a = true /\ blank b = true).
Proof.
  eapply (florence_caption_without_question Demo.backend
            (Demo.upload [("mode", "caption")])
            {| filename := "cat.png"; stream := "PNG" |}
            (create_app Demo.backend false) _ "PNG").
  - by vm_compute.
  - by vm_compute.
  - by vm_compute.
  - by vm_compute.
  - vm_compute. reflexivity.
  - vm_compute. reflexivity.
  - vm_compute. reflexivity.
  - vm_compute. reflexivity.
Defined.

(** ** The prompt of a roast *)

(** X16: in mode "roast" the conversational backend is queried exactly
    once, with a prompt that is never empty and has no white space at
    either end: the fallback sentence when the question is empty or all
    white space, and otherwise the question without the white space at
    its two ends. *)
Theorem roast_prompt_is_never_blank (B : Backend) (mdl : Handle)
    (model_key : string) (image : Image) (question : string)
    (mode : option string) (s : State) :
  or_str mode (default "caption" (dict_get MODELS model_key ≫= default_mode))
    = "roast" ->
  exists p,
    queries (moondream_caption B mdl model_key image question mode s).2
      = (queries s ++ [(image, p)])%list
    /\ p <> "" /\ lstrip p = p /\ rstrip p = p
    /\ (blank question = true -> p = roast_fallback)
    /\ (blank question = false ->
        exists a b, question = a +:+ p +:+ b /\ blank a = true /\ blank b = true).
Proof.
  intros Hmode.
  exists (if decide (strip question = "") then roast_fallback else strip question).
  split_and!.
  - assert (Hp : or_str (if decide (question = "") then None
                         else Some (strip question)) roast_fallback
                 = if decide (strip question = "") then roast_fallback
                   else strip question).
    { unfold or_str. destruct (decide (question = "")) as [->|]; [done |].
      by destruct (decide (strip question = "")). }
    unfold moondream_caption. rewrite Hmode, decide_True by done. rewrite Hp.
    unfold bind, call_at, ret.
    destruct (query B _ _ _ _) as [[d|str]|e]; cbn [snd];
      unfold queries, record; cbn [trace]; by rewrite omap_app.
  - case_decide; [by unfold roast_fallback | done].
  - case_decide; [by vm_compute | apply strip_edges].
  - case_decide; [by vm_compute | apply strip_edges].
  - intros Hb. apply strip_blank_iff in Hb. by rewrite decide_True.
  - intros Hb. rewrite decide_False.
    + apply strip_split.
    + intros H. apply strip_blank_iff in H. congruence.
Qed.

Lemma roast_prompt_is_never_blank_witness :
  let s := create_app Demo.backend false in
  let h := {| hid := 7; hkind := KCausalLM; hub := "vikhyatk/moondream2";
              hrev := Some "2025-06-21" |} in
  exists p,
    queries (moondream_caption Demo.backend h "moondream-2" "PNG" "  why? "
                               (Some "roast") s).2
      = (queries s ++ [("PNG", p)])%list
    /\ p <> "" /\ lstrip p = p /\ rstrip p = p
    /\ (blank "  why? " = true -> p = roast_fallback)
    /\ (blank "  why? " = false ->
        exists a b, "  why? " = a +:+ p +:+ b /\ blank a = true /\ blank b = true).
Proof.
  intros s h.
  apply (roast_prompt_is_never_blank Demo.backend h "moondream-2" "PNG" "  why? "
           (Some "roast") s).
  reflexivity.
Defined.

(** ** A body that is not an object *)

(** X7: a JSON body that is truthy and not an object (a non-empty
    array or string, a non-zero number, [true]) is not replaced by the
    empty object: reading its first field raises, the answer is 500 with
    "'<type>' object has no attribute 'get'" and nothing else happens. *)
Theorem non_object_body_is_rejected (B : Backend) (v : json) (s : State) :
  truthy v = true ->
  type_name v <> "dict" ->
  generate_text B (Some v) s =
  ({| status := 500;
      body := JObj [("error",
        JStr ("Error generating text: '" +:+ type_name v
              +:+ "' object has no attribute 'get'"))] |},
   log "ERROR"
     ("Error generating text: "
      +:+ format_exc B ("'" +:+ type_name v +:+ "' object has no attribute 'get'"))
     s).
Proof.
  intros Ht Hd. unfold generate_text, handle_errors.
  rewrite generate_text_body_steps.
  unfold generate_args, get_json_or_empty. rewrite Ht.
  by destruct v.
Qed.

Lemma non_object_body_is_rejected_witness :
  let s := create_app Demo.backend false in
  generate_text Demo.backend (Some (JArr [JStr "Hello"])) s =
  ({| status := 500;
      body := JObj [("error",
        JStr ("Error generating text: '" +:+ "list"
              +:+ "' object has no attribute 'get'"))] |},
   log "ERROR"
     ("Error generating text: "
      +:+ format_exc Demo.backend
            ("'" +:+ "list" +:+ "' object has no attribute 'get'"))
     s).
Proof.
  intros s.
  apply (non_object_body_is_rejected Demo.backend (JArr [JStr "Hello"]) s);
    by vm_compute.
Defined.

(** ** A request that succeeded *)

(** After an answer with status 200, the registered model of the
    request is in the image cache. *)
Lemma caption_image_ok_cached (B : Backend) (req : CaptionRequest) (s : State) :
  dict_mem MODELS (default "florence-2" (form req !! "model")) = true ->
  status (caption_image B req s).1 = 200 ->
  is_Some (model_cache (caption_image B req s).2
             !! default "florence-2" (form req !! "model")).
Proof.
  intros Hreg. unfold caption_image.
  destruct (files req !! "image") as [file|] eqn:Hf.
  2: { unfold handle_errors, caption_image_body. rewrite Hf. by cbn. }
  destruct (decide (filename file = "")) as [Hn|Hn].
  { unfold handle_errors, caption_image_body. rewrite Hf.
    rewrite decide_True by done. by cbn. }
  unfold handle_errors.
  rewrite (caption_image_body_steps B req file s Hf Hn). cbv zeta.
  destruct (image_open B (stream file)) as [image|e]; [| by cbn].
  destruct (get_model B _ _) as [[loaded|e] s1] eqn:Hget; [| by cbn].
  apply get_model_returns_cached in Hget. rewrite Hreg in Hget.
  assert (Hl : model_cache s1 !! default "florence-2" (form req !! "model")
               = Some loaded) by (by case_bool_decide).
  set (adapter := match loaded with
                  | LFlorence p m => florence_caption B p m image _ _
                  | LMoondream m => moondream_caption B m _ image _ _
                  | LPipeline h => pipeline_caption B h image
                  end).
  assert (Ha : same_caches s1 (adapter s1).2).
  { destruct loaded; [apply (respects_florence_caption same_caches)
                     | apply (respects_moondream_caption same_caches)
                     | apply (respects_pipeline_caption same_caches)]. }
  destruct (adapter s1) as [[text|e] s2]; cbn [snd fst] in *; [| by cbn].
  intros _. destruct Ha as [Ha _]. cbn [model_cache log record].
  rewrite Ha, Hl. by eexists.
Qed.

(** After an answer with status 200, the registered model of the body
    is in the text cache. *)
Lemma generate_text_ok_cached (B : Backend) (payload : option json) (s : State)
    (args : GenerateArgs) (k : string) :
  generate_args B payload s = (Return args, s) ->
  g_model_key args = JStr k ->
  dict_mem LLM_MODELS k = true ->
  status (generate_text B payload s).1 = 200 ->
  is_Some (llm_cache (generate_text B payload s).2 !! k).
Proof.
  intros Hargs Hk Hreg. unfold generate_text, handle_errors.
  rewrite generate_text_body_steps, Hargs, Hk.
  destruct (get_llm B (JStr k) s) as [[loaded|e] s1] eqn:Hget; [| by cbn].
  apply get_llm_returns_cached in Hget as (hit & Hhit & Hl).
  cbn [find_key] in Hhit. injection Hhit as <-.
  assert (Hl' : llm_cache s1 !! k = Some loaded).
  { case_bool_decide; [done |].
    destruct Hl as (known & Hknown & Hl). cbn [find_key] in Hknown.
    rewrite Hreg in Hknown. by injection Hknown as <-. }
  clear Hl. cbv zeta.
  repeat (case_match; simplify_eq); cbn [fst snd]; try (by cbn);
    intros _; cbn [llm_cache log record]; rewrite Hl'; by eexists.
Qed.

(** The arguments [generate_text] reads from the body do not depend on
    the state. *)
Lemma generate_args_anywhere (B : Backend) (payload : option json) (s s' : State)
    (args : GenerateArgs) :
  generate_args B payload s = (Return args, s) ->
  generate_args B payload s' = (Return args, s').
Proof.
  unfold generate_args, bind, lift, ret.
  intros H. repeat (case_match; simplify_eq); done.
Qed.

(** X17: caching is idempotent for the registered models: after a
    request that named a registered model (or none, for the default) and
    was answered with status 200, a second request for the same model
    builds no backend object and leaves both caches as they are, whatever
    its other fields and its outcome. This holds for POST /caption and
    for POST /generate. *)
Theorem repeated_request_builds_nothing (B : Backend) (s : State) :
  (forall req req',
      dict_mem MODELS (default "florence-2" (form req !! "model")) = true ->
      status (caption_image B req s).1 = 200 ->
      form req' !! "model" = form req !! "model" ->
      let s1 := (caption_image B req s).2 in
      same_caches s1 (caption_image B req' s1).2
      /\ constructions (caption_image B req' s1).2 = constructions s1)
  /\ (forall payload payload' args args' k,
        generate_args B payload s = (Return args, s) ->
        generate_args B payload' s = (Return args', s) ->
        g_model_key args = JStr k ->
        g_model_key args' = JStr k ->
        dict_mem LLM_MODELS k = true ->
        status (generate_text B payload s).1 = 200 ->
        let s1 := (generate_text B payload s).2 in
        same_caches s1 (generate_text B payload' s1).2
        /\ constructions (generate_text B payload' s1).2 = constructions s1).
Proof.
  split.
  - intros req req' Hreg Hok Hsame s1.
    destruct (caption_image_ok_cached B req s Hreg Hok) as [l Hl].
    apply (caption_image_cached B req' s1 l). by rewrite Hsame.
  - intros payload payload' args args' k Ha Ha' Hk Hk' Hreg Hok s1.
    destruct (generate_text_ok_cached B payload s args k Ha Hk Hreg Hok) as [l Hl].
    apply (generate_text_cached B payload' s1 args' l).
    + by apply (generate_args_anywhere B payload' s).
    + by rewrite Hk'.
Qed.

Lemma repeated_request_builds_nothing_witness :
  let s := create_app Demo.backend true in
  let s1 := (caption_image Demo.backend (Demo.upload [("model", "vit-gpt2")]) s).2 in
  let req' := Demo.upload [("model", "vit-gpt2"); ("question", "what?")] in
  same_caches s1 (caption_image Demo.backend req' s1).2
  /\ constructions (caption_image Demo.backend req' s1).2 = constructions s1.
Proof.
  intros s s1 req'.
  apply (proj1 (repeated_request_builds_nothing Demo.backend s)
               (Demo.upload [("model", "vit-gpt2")]) req'
               ltac:(by vm_compute) ltac:(by vm_compute) ltac:(by vm_compute)).
Defined.

(** ** An unknown model identifier and the default model *)

Section UnknownModel.
Variable B : Backend.

(** The application only reaches states whose caches hold registered
    keys and entries built from their descriptors. *)
Lemma reachable_registered (debug : bool) (rs : list Request) :
  cache_keys_registered (serve_all B rs (create_app B debug)).
Proof. apply registered_serve_all, registered_create_app. Qed.

Lemma reachable_coherent (debug : bool) (rs : list Request) :
  caches_coherent (serve_all B rs (create_app B debug)).
Proof. apply coherent_serve_all, coherent_create_app. Qed.

(** What [get_model] does with an identifier that is neither registered
    nor cached, whatever else the cache holds. *)
Lemma get_model_unregistered_effect (k : string) (s : State) :
  dict_mem MODELS k = false ->
  model_cache s !! k = None ->
  match get_model B k s with
  | (Return l, s1) =>
      l = LPipeline {| hid := clock s; hkind := KPipeline "image-to-text";
                       hub := blip_base_hub; hrev := None |}
      /\ construct B (clock s) (KPipeline "image-to-text") blip_base_hub None
         = Return tt
      /\ model_cache s1 = <["blip-base" := l]> (model_cache s)
      /\ clock s1 = S (clock s)
      /\ constructions s1 = S (constructions s)
  | (Raise e, s1) =>
      construct B (clock s) (KPipeline "image-to-text") blip_base_hub None
      = Raise e
      /\ model_cache s1 = model_cache s
  end.
Proof.
  intros Hk Hc. rewrite (get_model_unregistered B k s Hk Hc). cbv zeta.
  destruct (construct B (clock s) _ _ _) as [[]|e].
  - split_and!; try done.
    rewrite constructions_log, constructions_set_model_cache.
    by rewrite constructions_record_construct, constructions_log.
  - by split.
Qed.

(** What [get_model "florence-2"] returns on coherent caches. *)
Lemma get_model_florence (s s1 : State) (l : LoadedModel) :
  caches_coherent s ->
  get_model B "florence-2" s = (Return l, s1) ->
  exists p m, l = LFlorence p m
              /\ hub p = "microsoft/Florence-2-base"
              /\ hub m = "microsoft/Florence-2-base".
Proof.
  intros Hs H.
  destruct (get_model_returns_coherent B "florence-2" s s1 l Hs H)
    as (info & Hinfo & Hb).
  change (dict_get MODELS (model_key_for "florence-2"))
    with (Some florence_info) in Hinfo.
  injection Hinfo as <-.
  destruct l as [p m|m|h]; cbn in Hb.
  - exists p, m. by destruct Hb as (_ & _ & -> & _ & _ & -> & _).
  - by destruct Hb as [? _].
  - by destruct Hb as [? _].
Qed.

End UnknownModel.

(** C1, the defect: in every state the application reaches, a
    POST /caption with a [model] identifier that is not registered is
    not served as the request without the field.  [get_model] builds a
    new generic pipeline of "Salesforce/blip-image-captioning-base" for
    it, stores it under "blip-base" and never turns to "florence-2",
    whatever the cache holds: for a decodable upload the response is the
    [generated_text] of that pipeline's first item (500 with the
    constructor's message when the pipeline cannot be built).  The same
    request without the field is the request with model = "florence-2",
    for which [get_model] returns nothing but the tag-prompted pair of
    "microsoft/Florence-2-base".  For text models there is no such gap:
    [get_llm] serves an unregistered identifier with a pipeline of
    "HuggingFaceTB/SmolLM2-1.7B-Instruct" stored under "smollm2-1.7b",
    the key the handler reads when the body has no [model]. *)
Theorem unregistered_model_is_served_by_blip_base (B : Backend) (debug : bool)
    (rs : list Request) :
  let s := serve_all B rs (create_app B debug) in
  (forall k l s1,
      dict_mem MODELS k = false ->
      get_model B k s = (Return l, s1) ->
      l = LPipeline {| hid := clock s; hkind := KPipeline "image-to-text";
                       hub := blip_base_hub; hrev := None |}
      /\ model_cache s1 = <["blip-base" := l]> (model_cache s)
      /\ constructions s1 = S (constructions s))
  /\ (forall k req file image,
        dict_mem MODELS k = false ->
        files req !! "image" = Some file ->
        filename file <> "" ->
        image_open B (stream file) = Return image ->
        let s0 := record (EvImageOpen (stream file)) s in
        let unknown := caption_image B (with_model k req) s in
        let built :=
          construct B (clock s0) (KPipeline "image-to-text") blip_base_hub None in
        let h := {| hid := clock s0; hkind := KPipeline "image-to-text";
                    hub := blip_base_hub; hrev := None |} in
        (forall e, built = Raise e ->
           unknown.1 =
             {| status := 500;
                body := JObj [("error", JStr ("Error analyzing image: " +:+ e))] |}
           /\ model_cache unknown.2 = model_cache s)
        /\ (built = Return tt ->
            model_cache unknown.2 = <["blip-base" := LPipeline h]> (model_cache s)
            /\ constructions unknown.2 = S (constructions s)
            /\ forall first rest v,
                 captioner B (S (clock s0)) blip_base_hub image
                   = Return (first :: rest) ->
                 dict_get first "generated_text" = Some v ->
                 unknown.1 = {| status := 200; body := JObj [("text", v)] |}))
  /\ (forall req,
        form req !! "model" = None ->
        caption_image B req s = caption_image B (with_model "florence-2" req) s)
  /\ (forall stream l s1,
        get_model B "florence-2" (record (EvImageOpen stream) s) = (Return l, s1) ->
        exists p m, l = LFlorence p m
                    /\ hub p = "microsoft/Florence-2-base"
                    /\ hub m = "microsoft/Florence-2-base")
  /\ (forall kt l s1,
        dict_mem LLM_MODELS kt = false ->
        get_llm B (JStr kt) s = (Return l, s1) ->
        hub (pipe_handle (pipe l)) = smollm2_hub
        /\ llm_cache s1 = <["smollm2-1.7b" := l]> (llm_cache s))
  /\ (forall body d args,
        get_json_or_empty body = JObj d ->
        dict_get d "model" = None ->
        generate_args B body s = (Return args, s) ->
        g_model_key args = JStr "smollm2-1.7b").
Proof.
  intros s.
  pose proof (reachable_registered B debug rs) as Hreg. fold s in Hreg.
  pose proof (reachable_coherent B debug rs) as Hcoh. fold s in Hcoh.
  destruct (registered_lookup s Hreg) as [Hm Hl].
  split_and!.
  - intros k l s1 Hk Hget.
    pose proof (get_model_unregistered_effect B k s Hk (Hm k Hk)) as H.
    rewrite Hget in H. by destruct H as (-> & _ & ? & _ & ?).
  - intros k req file image Hk Hf Hn Hi s0 unknown built h.
    assert (Hc0 : model_cache s0 !! k = None) by (by apply Hm).
    pose proof (get_model_unregistered_effect B k s0 Hk Hc0) as Hget.
    assert (Hsteps : unknown =
      handle_errors B "Error analyzing image"
        (fun s =>
           match get_model B k s0 with
           | (Raise e, s1) => (Raise e, s1)
           | (Return loaded, s1) =>
               match
                 match loaded with
                 | LFlorence processor mdl =>
                     florence_caption B processor mdl image
                       (default "" (form (with_model k req) !! "question"))
                       (form (with_model k req) !! "mode")
                 | LMoondream mdl =>
                     moondream_caption B mdl k image
                       (default "" (form (with_model k req) !! "question"))
                       (form (with_model k req) !! "mode")
                 | LPipeline captioner_h => pipeline_caption B captioner_h image
                 end s1
               with
               | (Raise e, s2) => (Raise e, s2)
               | (Return text, s2) =>
                   (Return (jsonify [("text", text)]),
                    log "INFO" ("Image analyzed successfully with model: " +:+ k) s2)
               end
           end) s).
    { unfold unknown, caption_image, handle_errors.
      rewrite (caption_image_body_steps B (with_model k req) file s) by done.
      cbv zeta. cbn [with_model form files]. rewrite lookup_insert_eq.
      change (default "florence-2" (Some k)) with k.
      by rewrite Hi. }
    split.
    + intros e He. rewrite Hsteps. unfold handle_errors.
      destruct (get_model B k s0) as [[l|e'] s1].
      * destruct Hget as (_ & Hb & _). unfold built in He. congruence.
      * destruct Hget as [Hb Hcache]. unfold built in He.
        rewrite Hb in He. injection He as ->. cbn. by split.
    + intros Hb. rewrite Hsteps. unfold handle_errors.
      destruct (get_model B k s0) as [[l|e'] s1].
      2: { destruct Hget as [Hb' _]. unfold built in Hb. congruence. }
      destruct Hget as (-> & _ & Hcache & Hclock & Hcons). fold h.
      assert (Ha : same_caches s1 (pipeline_caption B h image s1).2
                   /\ constructions (pipeline_caption B h image s1).2
                      = constructions s1).
      { apply (respects_pipeline_caption nothing_built). }
      destruct Ha as [[Ha _] Hna].
      assert (Hs1 : constructions s1 = S (constructions s)).
      { rewrite Hcons. unfold s0. by rewrite constructions_record. }
      split_and!.
      * destruct (pipeline_caption B h image s1) as [[text|e] s2];
          cbn [fst snd model_cache log record] in *; by rewrite Ha, Hcache.
      * destruct (pipeline_caption B h image s1) as [[text|e] s2];
          cbn [fst snd] in *; by rewrite constructions_log, Hna.
      * intros first rest v Hcap Hv.
        unfold pipeline_caption, bind, call_at, lift.
        rewrite Hclock. cbn [hub h]. rewrite Hcap.
        cbn [list_getitem lookup list_lookup]. unfold dict_getitem.
        by rewrite Hv.
  - intros req Hnone. by apply caption_image_default_model.
  - intros stream l s1. apply get_model_florence.
    destruct Hcoh as [H1 H2]. by split.
  - intros kt l s1 Hkt Hllm.
    rewrite (get_llm_unregistered B kt s Hkt (Hl kt Hkt)) in Hllm.
    cbv zeta in Hllm.
    destruct (construct B (clock s) _ _ _); [| discriminate].
    by injection Hllm as <- <-.
  - intros body d args Hd Hmodel Hargs.
    rewrite (generate_args_dict B body d s Hd) in Hargs.
    destruct (py_int B _) as [n|e]; [| discriminate].
    destruct (py_float B _) as [t|e]; [| discriminate].
    injection Hargs as <-. cbn [g_model_key]. by rewrite Hmodel.
Qed.

Lemma unregistered_model_is_served_by_blip_base_witness :
  let B := Demo.backend in
  let s := serve_all B [PostCaption (Demo.upload [("model", "blip-base")])]
                     (create_app B false) in
  let unknown := caption_image B (with_model "nope" (Demo.upload [])) s in
  let omitted := caption_image B (Demo.upload []) s in
  is_Some (model_cache s !! "blip-base")
  /\ is_Some (model_cache s !! "florence-2")
  /\ constructions unknown.2 = S (constructions s)
  /\ unknown.1 = {| status := 200;
                    body := JObj [("text", JStr "a photography of a cat")] |}
  /\ omitted = caption_image B (with_model "florence-2" (Demo.upload [])) s
  /\ omitted.1 = {| status := 200;
                    body := JObj [("text", JStr "A cat sits on a mat.")] |}
  /\ constructions omitted.2 = constructions s.
Proof.
  intros B s unknown omitted.
  destruct (unregistered_model_is_served_by_blip_base B false
              [PostCaption (Demo.upload [("model", "blip-base")])])
    as (_ & Hunknown & Homitted & _).
  destruct (Hunknown "nope" (Demo.upload [])
              {| filename := "cat.png"; stream := "PNG" |} "PNG"
              ltac:(by vm_compute) ltac:(by vm_compute) ltac:(by vm_compute)
              ltac:(by vm_compute))
    as [_ Hbuilt].
  destruct (Hbuilt ltac:(by vm_compute)) as (_ & Hcons & Htext).
  split_and!.
  - vm_compute. by eexists.
  - vm_compute. by eexists.
  - exact Hcons.
  - apply (Htext [("generated_text", JStr "a photography of a cat")] []);
      by vm_compute.
  - apply Homitted. by vm_compute.
  - by vm_compute.
  - by vm_compute.
Defined.
